(** * sphinxcontrib.intertex: a shallow embedding of the extension logic

    The development follows [sphinxcontrib/intertex/__init__.py]:
    Python strings are lists of code points, dictionaries used as lookup
    tables are [gmap]s, the ordered configuration dictionary is an
    association list, logging and exceptions are threaded through a small
    monad, and the three regular expressions of the module are embedded as
    matchers driven by one left-to-right scanner. *)

From Stdlib Require Import String Ascii NArith ZArith List Lia.
From stdpp Require Import base option list gmap.

Set Warnings "-register-all".

Local Open Scope N_scope.
Local Open Scope list_scope.

(** ** Python strings *)

Module Py.

(** A Python [str]: its sequence of code points. *)
Abbreviation str := (list N).

(** An ASCII literal as a Python string. *)
Definition of_string (s : string) : str :=
  List.map N_of_ascii (list_ascii_of_string s).

(** [s.replace(old, new)] for one-character [old] and [new]. *)
Definition replace (old new : N) (s : str) : str :=
  List.map (fun c => if N.eqb c old then new else c) s.

(** [needle in s] for a one-character needle. *)
Definition contains (c : N) (s : str) : bool :=
  existsb (N.eqb c) s.

(** [s.partition(sep)[2]] for a one-character separator: what follows
    the first occurrence, or the empty string when there is none. *)
Fixpoint partition_after (sep : N) (s : str) : str :=
  match s with
  | [] => []
  | c :: t => if N.eqb c sep then t else partition_after sep t
  end.

(** [s.startswith(p)], returning the rest of [s]. *)
Fixpoint strip_prefix (p s : str) : option str :=
  match p, s with
  | [], _ => Some s
  | _ :: _, [] => None
  | a :: p', c :: s' => if N.eqb a c then strip_prefix p' s' else None
  end.

(** The longest prefix whose characters satisfy [f], and the rest. *)
Fixpoint span (f : N -> bool) (s : str) : str * str :=
  match s with
  | [] => ([], [])
  | c :: t =>
      if f c then let '(a, b) := span f t in (c :: a, b) else ([], s)
  end.

(** [str.translate(table)] for a table whose values are strings: a
    character missing from the table is kept. *)
Definition translate (table : gmap N str) (s : str) : str :=
  flat_map (fun c => match table !! c with Some r => r | None => [c] end) s.

(** One lower-case hexadecimal digit. *)
Definition hex_digit (d : N) : N :=
  if d <? 10 then 48 + d else 87 + d.

(** [n] as [k] hexadecimal digits, most significant first. *)
Fixpoint hex (k : nat) (n : N) : str :=
  match k with
  | O => []
  | S k' => hex k' (n / 16) ++ [hex_digit (n mod 16)]
  end.

(** [s.encode("ascii", "backslashreplace").decode("ascii")]. *)
Definition backslashreplace_char (c : N) : str :=
  if c <? 128 then [c]
  else if c <? 256 then [92; 120] ++ hex 2 c
  else if c <? 65536 then [92; 117] ++ hex 4 c
  else [92; 85] ++ hex 8 c.

Definition ascii_backslashreplace (s : str) : str :=
  flat_map backslashreplace_char s.

End Py.

Arguments Py.of_string : simpl never.

Abbreviation py s := (Py.of_string s%string) (only parsing).

(** ** Exceptions, logging and the effect monad *)

Inductive exn : Type :=
| ImportError (name msg : Py.str)
| TypeError
| KeyError (key : Py.str)
| IndexError
| OSError.

Inductive level : Type := ERROR | WARNING.

(** The five messages the module logs, with their arguments. *)
Inductive message : Type :=
| CouldntImportModule (name msg bibentry : Py.str)
| NoAuxFilesMatching (filename_pattern bibentry : Py.str)
| MultipleAuxFilesMatching (filename_pattern bibentry first : Py.str)
| DefinedMultipleTimes (sphinx_target : Py.str)
| NoCitationFor (bibentry : Py.str).

Definition logrec : Type := level * message.

Inductive res (A : Type) : Type :=
| Ok (a : A)
| Raise (e : exn).
Arguments Ok {A} a.
Arguments Raise {A} e.

(** A computation that may log and may raise. *)
Definition M (A : Type) : Type := list logrec -> res A * list logrec.

Definition ret {A} (a : A) : M A := fun l => (Ok a, l).
Definition raise {A} (e : exn) : M A := fun l => (Raise e, l).
Definition bind {A B} (m : M A) (k : A -> M B) : M B :=
  fun l => match m l with
           | (Ok a, l') => k a l'
           | (Raise e, l') => (Raise e, l')
           end.
Definition lift {A} (r : res A) : M A := fun l => (r, l).
Definition logger_error (m : message) : M unit :=
  fun l => (Ok tt, l ++ [(ERROR, m)]).
Definition logger_warning (m : message) : M unit :=
  fun l => (Ok tt, l ++ [(WARNING, m)]).

Notation "'do' x <- m ; k" := (bind m (fun x => k))
  (at level 10, x name, m at level 100, k at level 200).
Notation "'run' m ; k" := (bind m (fun _ => k))
  (at level 10, m at level 100, k at level 200).

(** A [for] loop over [xs] threading the loop state [s]. *)
Fixpoint for_each {A S} (body : A -> S -> M S) (xs : list A) (s : S) : M S :=
  match xs with
  | [] => ret s
  | x :: xs' => do s' <- body x s; for_each body xs' s'
  end.

(** ** Regular expressions *)

Module Re.

(** A matcher tries to match at the head of the input and returns the
    text of capture group 1 and the input after the match. *)
Definition matcher : Type := Py.str -> option (Py.str * Py.str).

(** The successive non-overlapping matches of a scan from left to right:
    each with the literal text before it, and the text after the last. *)
Fixpoint finditer_fuel (fuel : nat) (m : matcher) (s : Py.str)
  : list (Py.str * Py.str) * Py.str :=
  match fuel with
  | O => ([], s)
  | S fuel' =>
      match s with
      | [] => ([], [])
      | c :: t =>
          match m s with
          | Some (cap, rest) =>
              let '(ms, tl) := finditer_fuel fuel' m rest in
              (([], cap) :: ms, tl)
          | None =>
              match finditer_fuel fuel' m t with
              | ([], tl) => ([], c :: tl)
              | ((lit, cap) :: ms, tl) => ((c :: lit, cap) :: ms, tl)
              end
          end
      end
  end.

Definition finditer (m : matcher) (s : Py.str) :=
  finditer_fuel (S (length s)) m s.

(** [pattern.findall(s)] for a pattern with one capture group. *)
Definition findall (m : matcher) (s : Py.str) : list Py.str :=
  List.map snd (fst (finditer m s)).

(** [pattern.split(s)] for a pattern with one capture group: literal
    pieces alternating with captures. *)
Definition split (m : matcher) (s : Py.str) : list Py.str :=
  let '(ms, tl) := finditer m s in
  flat_map (fun '(lit, cap) => [lit; cap]) ms ++ [tl].

(** [pattern.sub(repl, s)] with a callable [repl], called on each match
    from left to right; the first exception it raises propagates. *)
Fixpoint sub_pieces (repl : Py.str -> res Py.str)
    (ms : list (Py.str * Py.str)) (tl : Py.str) : res Py.str :=
  match ms with
  | [] => Ok tl
  | (lit, cap) :: ms' =>
      match repl cap with
      | Raise e => Raise e
      | Ok r =>
          match sub_pieces repl ms' tl with
          | Raise e => Raise e
          | Ok out => Ok (lit ++ r ++ out)
          end
      end
  end.

Definition sub (m : matcher) (repl : Py.str -> res Py.str) (s : Py.str)
  : res Py.str :=
  let '(ms, tl) := finditer m s in sub_pieces repl ms tl.

End Re.

Definition is_module_name_char (c : N) : bool :=
  ((97 <=? c) && (c <=? 122)) || ((65 <=? c) && (c <=? 90))
  || ((48 <=? c) && (c <=? 57)) || (c =? 95) || (c =? 46).

Definition is_not_brace (c : N) : bool :=
  negb ((c =? 123) || (c =? 125)).

(** The pattern of [BRACKETED_MODULE_NAME_REGEX]: an opening brace, one
    or more of the characters a-z, A-Z, 0-9, underscore and dot (the
    capture group), a closing brace. The class excludes the closing
    brace, so the greedy run either is followed by it or nothing
    matches here. *)
Definition BRACKETED_MODULE_NAME_REGEX : Re.matcher := fun s =>
  match s with
  | 123 :: t =>
      match Py.span is_module_name_char t with
      | ((_ :: _) as name, 125 :: rest) => Some (name, rest)
      | _ => None
      end
  | _ => None
  end.

(** The pattern of [BRACKETED_VALUE_REGEX]: an opening brace, any number
    of characters other than braces (the capture group), a closing
    brace. *)
Definition BRACKETED_VALUE_REGEX : Re.matcher := fun s =>
  match s with
  | 123 :: t =>
      match Py.span is_not_brace t with
      | (value, 125 :: rest) => Some (value, rest)
      | _ => None
      end
  | _ => None
  end.

(** [AUX_ENTRY_REGEX.match(line)]: a backslash and [newlabel] at the
    start of the line; the capture group is the rest of the line up to
    its newline, which the dot does not match. *)
Definition AUX_ENTRY_REGEX_match (line : Py.str) : option Py.str :=
  match Py.strip_prefix (py "\newlabel") line with
  | Some rest => Some (fst (Py.span (fun c => negb (c =? 10)) rest))
  | None => None
  end.

(** ** Documents, configuration and build environment *)

(** The docutils nodes the module builds or receives. All elements here
    are text elements: their text is the concatenation of their
    children's. *)
Inductive node : Type :=
| Text (data : Py.str)
| inline (children : list node)
| citation_reference (docname refname : Py.str) (children : list node)
| reference (attributes : list (Py.str * Py.str)) (children : list node).

Fixpoint astext (n : node) : Py.str :=
  match n with
  | Text data => data
  | inline children => concat (List.map astext children)
  | citation_reference _ _ children => concat (List.map astext children)
  | reference _ children => concat (List.map astext children)
  end.

(** A Python dictionary iterated in insertion order. *)
Abbreviation dict K V := (list (K * V)).

(** [d[k] = v]: an existing key keeps its place. *)
Fixpoint dict_set {V} (k : Py.str) (v : V) (d : dict Py.str V)
  : dict Py.str V :=
  match d with
  | [] => [(k, v)]
  | (k', v') :: d' =>
      if bool_decide (k' = k) then (k, v) :: d'
      else (k', v') :: dict_set k v d'
  end.

Record Config : Type := {
  intertex_mapping : dict Py.str Py.str;
  intertex_reference_format : Py.str;
  intertex_formats : list Py.str
}.

(** The default values registered by [setup]. *)
Definition default_config : Config := {|
  intertex_mapping := [];
  intertex_reference_format := py "{label} ({bibref}, page {page})";
  intertex_formats := [py "latex"]
|}.

(** A reference location: (bibentry, section, page). *)
Definition location : Type := Py.str * Py.str * Py.str.

Record Env : Type := {
  intertex_refs : gmap Py.str location;
  (* the citation domain: definitions (docname, labelid, lineno) and uses *)
  citations : gmap Py.str (Py.str * Py.str * Z);
  citation_refs : gmap Py.str (gset Py.str)
}.

Record App : Type := {
  config : Config;
  builder_format : Py.str;
  builder_env : Env
}.

(** The pending cross-reference handed to [missing_reference]. *)
Record pending_xref : Type := {
  reftarget : Py.str;
  reftype : Py.str;
  refdoc : Py.str
}.

(** [l[i]] *)
Definition getitem {A} (l : list A) (i : nat) : M A :=
  match l !! i with
  | Some x => ret x
  | None => raise IndexError
  end.

(** [for x in list(xs): xs.append(f(x))] *)
Definition append_each {A} (f : A -> A) (xs : list A) : list A :=
  fold_left (fun acc x => acc ++ [f x]) xs xs.

Section Intertex.

(** *** The host: Sphinx, the interpreter and the file system *)

(** [sphinx.util.texescape.tex_replace_map] *)
Variable tex_replace_map : gmap N Py.str.

(** [importlib.import_module] and [inspect.getsourcefile]; the latter
    returns [None] for a module without Python source. *)
Variable module : Type.
Variable import_module : Py.str -> res module.
Variable getsourcefile : module -> res (option Py.str).

(** [os.path.dirname], [os.path.normpath], [glob.glob] *)
Variable dirname : Py.str -> Py.str.
Variable normpath : Py.str -> Py.str.
Variable glob : Py.str -> list Py.str.

(** The lines of a file, as iterating over it yields them; [None] when
    it cannot be opened. A file that opens is taken to decode: what the
    code raises while it iterates over a file it could open is not
    modelled. *)
Variable file_lines : Py.str -> option (list Py.str).

(** [sphinx.util.nodes.make_refnode builder fromdocname todocname
    targetid child] *)
Variable make_refnode : Py.str -> Py.str -> Py.str -> node -> node.

(** *** expand_aux_file_names *)

(** The replacement callable of the module-name substitution;
    [os.path.dirname] raises [TypeError] on [None]. *)
Definition module_directory (name : Py.str) : res Py.str :=
  match import_module name with
  | Raise e => Raise e
  | Ok m =>
      match getsourcefile m with
      | Raise e => Raise e
      | Ok None => Raise TypeError
      | Ok (Some sourcefile) => Ok (dirname sourcefile ++ py "/")
      end
  end.

(** One iteration of the loop over [config.intertex_mapping.items()]. *)
Definition expand_entry (item : Py.str * Py.str)
    (new_intertex_mapping : dict Py.str Py.str) : M (dict Py.str Py.str) :=
  let '(bibentry, filename_pattern) := item in
  match Re.sub BRACKETED_MODULE_NAME_REGEX module_directory filename_pattern with
  | Raise (ImportError name msg) =>
      run logger_error (CouldntImportModule name msg bibentry);
      ret new_intertex_mapping
  | Raise e => raise e
  | Ok filename_pattern =>
      let filename_pattern := normpath filename_pattern in
      let filenames := glob filename_pattern in
      match filenames with
      | [] =>
          run logger_error (NoAuxFilesMatching filename_pattern bibentry);
          ret new_intertex_mapping
      | first :: _ =>
          run (if Nat.ltb 1 (length filenames)
               then logger_error
                      (MultipleAuxFilesMatching filename_pattern bibentry first)
               else ret tt);
          ret (dict_set bibentry first new_intertex_mapping)
      end
  end.

Definition expand_aux_file_names (cfg : Config) : M Config :=
  do new_intertex_mapping <- for_each expand_entry (intertex_mapping cfg) [];
  ret {| intertex_mapping := new_intertex_mapping;
         intertex_reference_format := intertex_reference_format cfg;
         intertex_formats := intertex_formats cfg |}.

(** *** read_mapping *)

(** What the loops of [read_mapping] update. *)
Record reading : Type := {
  r_refs : gmap Py.str location;
  r_citation_refs : gmap Py.str (gset Py.str);
  r_warned : gset Py.str
}.

(** The full label and, when it has a colon, what follows the first. *)
Definition sphinx_targets (label : Py.str) : list Py.str :=
  [label] ++ (if Py.contains 58 label then [Py.partition_after 58 label] else []).

(** The body of the loop over [sphinx_targets]. *)
Definition define_target (bibentry section page sphinx_target : Py.str)
    (st : reading) : M reading :=
  do warned <-
    (if bool_decide (is_Some (r_refs st !! sphinx_target))
        && negb (bool_decide (sphinx_target ∈ r_warned st))
     then run logger_warning (DefinedMultipleTimes sphinx_target);
          ret ({[sphinx_target]} ∪ r_warned st)
     else ret (r_warned st));
  ret {| r_refs := <[sphinx_target := (bibentry, section, page)]> (r_refs st);
         r_citation_refs := r_citation_refs st;
         r_warned := warned |}.

(** The body of the loop over the lines of one file. *)
Definition read_line (bibentry line : Py.str) (st : reading) : M reading :=
  match AUX_ENTRY_REGEX_match line with
  | None => ret st
  | Some arguments =>
      let args := Re.findall BRACKETED_VALUE_REGEX arguments in
      do label <- getitem args 0;
      do section <- getitem args 1;
      do page <- getitem args 2;
      for_each (define_target bibentry section page) (sphinx_targets label) st
  end.

(** The body of the loop over [app.config.intertex_mapping.items()]. *)
Definition read_aux_file (item : Py.str * Py.str) (st : reading) : M reading :=
  let '(bibentry, aux_filename) := item in
  let docnames := default ∅ (r_citation_refs st !! bibentry) in
  let st := {| r_refs := r_refs st;
               r_citation_refs :=
                 <[bibentry := {[ py "" ]} ∪ docnames]> (r_citation_refs st);
               r_warned := r_warned st |} in
  match file_lines aux_filename with
  | None => raise OSError
  | Some lines => for_each (read_line bibentry) lines st
  end.

Definition read_mapping (app : App) : M App :=
  let env := builder_env app in
  do st <- for_each read_aux_file (intertex_mapping (config app))
             {| r_refs := ∅;
                r_citation_refs := citation_refs env;
                r_warned := ∅ |};
  ret {| config := config app;
         builder_format := builder_format app;
         builder_env := {| intertex_refs := r_refs st;
                           citations := citations env;
                           citation_refs := r_citation_refs st |} |}.

(** *** The citation bridge *)

Definition get_citation_ref (env : Env) (bibentry : Py.str) : Py.str * Py.str :=
  let '(docname, labelid, lineno) :=
    default (py "", py "", 0%Z) (citations env !! bibentry) in
  (docname, labelid).

(** ["[{}]".format(bibentry)] *)
Definition bracketed (bibentry : Py.str) : Py.str :=
  py "[" ++ bibentry ++ py "]".

Definition make_bib_reference (app : App) (bibentry refdoc : Py.str) : M node :=
  let '(docname, labelid) := get_citation_ref (builder_env app) bibentry in
  match docname with
  | _ :: _ =>
      if bool_decide (builder_format app = py "latex")
      then ret (citation_reference docname labelid [Text (bracketed bibentry)])
      else ret (make_refnode refdoc docname labelid (Text (bracketed bibentry)))
  | [] =>
      run logger_warning (NoCitationFor bibentry);
      ret (Text (bracketed bibentry))
  end.

(** *** make_pdf_reference *)

(** The dictionary of placeholders, indexed by a placeholder name. *)
Definition placeholder (contnode bibref : node) (section page name : Py.str)
  : res node :=
  if bool_decide (name = py "label") then Ok contnode
  else if bool_decide (name = py "bibref") then Ok bibref
  else if bool_decide (name = py "section") then Ok (Text section)
  else if bool_decide (name = py "page") then Ok (Text page)
  else Raise (KeyError name).

(** The [while True] loop drawing from the iterator [format_parts]; it
    ends when [next] finds the iterator exhausted. *)
Fixpoint fill_format (subst : Py.str -> res node) (format_parts : list Py.str)
    (new_contnode : list node) : res (list node) :=
  match format_parts with
  | [] => Ok new_contnode
  | text :: format_parts =>
      let new_contnode := new_contnode ++ [Text text] in
      match format_parts with
      | [] => Ok new_contnode
      | name :: format_parts =>
          match subst name with
          | Raise e => Raise e
          | Ok n => fill_format subst format_parts (new_contnode ++ [n])
          end
      end
  end.

Definition make_pdf_reference (app : App) (bibentry section page : Py.str)
    (contnode : node) (refdoc : Py.str) : M node :=
  do bibref <- make_bib_reference app bibentry refdoc;
  let format_parts :=
    Re.split BRACKETED_VALUE_REGEX (intertex_reference_format (config app)) in
  do children <-
    lift (fill_format (placeholder contnode bibref section page) format_parts []);
  ret (inline children).

(** *** missing_reference *)

(** The label as the LaTeX writer normalises it. *)
Definition tex_label (reftarget : Py.str) : Py.str :=
  Py.replace 92 95
    (Py.ascii_backslashreplace (Py.translate tex_replace_map reftarget)).

Definition reftargets_to_try (nd : pending_xref) : list Py.str :=
  let reftargets_to_try := [reftarget nd] in
  let reftargets_to_try :=
    if bool_decide (reftype nd = py "mod")
    then reftargets_to_try ++ [py "module-" ++ reftarget nd]
    else reftargets_to_try in
  let reftargets_to_try := append_each tex_label reftargets_to_try in
  append_each (Py.replace 95 45) reftargets_to_try.

(** The final loop: the first target found in the index is returned,
    and falling off the end returns [None]. *)
Fixpoint try_reftargets (app : App) (env : Env) (nd : pending_xref)
    (contnode : node) (targets : list Py.str) : M (option node) :=
  match targets with
  | [] => ret None
  | t :: targets =>
      match intertex_refs env !! t with
      | Some (bibentry, section, page) =>
          do n <- make_pdf_reference app bibentry section page contnode (refdoc nd);
          ret (Some n)
      | None => try_reftargets app env nd contnode targets
      end
  end.

Definition missing_reference (app : App) (env : Env) (nd : pending_xref)
    (contnode : node) : M (option node) :=
  if bool_decide (builder_format app ∈ intertex_formats (config app))
  then try_reftargets app env nd contnode (reftargets_to_try nd)
  else ret None.

End Intertex.

(** ** A concrete host, for running the definitions *)

Module Host.

Definition tex_replace_map : gmap N Py.str :=
  list_to_map [(95, py "_"); (36, py "_"); (37, py "_"); (92, py "_");
               (123, py "_"); (125, py "_"); (8364, py "_")].

(** Modules are numbered: 0 has Python source, 1 is a C extension. *)
Definition import_module (name : Py.str) : res nat :=
  if bool_decide (name = py "sphinxcontrib.intertex") then Ok 0%nat
  else if bool_decide (name = py "_socket") then Ok 1%nat
  else Raise (ImportError name (py "No module named")).

Definition getsourcefile (m : nat) : res (option Py.str) :=
  match m with
  | O => Ok (Some (py "/site/sphinxcontrib/intertex/__init__.py"))
  | _ => Ok None
  end.

(** Everything before the last slash. *)
Fixpoint dirname (p : Py.str) : Py.str :=
  match p with
  | [] => []
  | c :: t => if Py.contains 47 t then c :: dirname t else []
  end.

Definition normpath (p : Py.str) : Py.str := p.

Definition glob (pattern : Py.str) : list Py.str :=
  if bool_decide (pattern = py "/docs/build/*.aux")
  then [py "/docs/build/a.aux"; py "/docs/build/b.aux"]
  else if bool_decide (pattern = py "/site/sphinxcontrib/intertex/doc.aux")
  then [py "/site/sphinxcontrib/intertex/doc.aux"]
  else if bool_decide (pattern = py "/docs/manual.aux")
  then [py "/docs/manual.aux"]
  else [].

Definition config_with_mapping (mapping : dict Py.str Py.str) : Config := {|
  intertex_mapping := mapping;
  intertex_reference_format := py "{label} ({bibref}, page {page})";
  intertex_formats := [py "latex"]
|}.

(** A line of a text file, with its newline. *)
Definition line (s : Py.str) : Py.str := s ++ [10].

Definition file_lines (filename : Py.str) : option (list Py.str) :=
  if bool_decide (filename = py "/docs/manual.aux")
  then Some [line (py "\relax ");
             line (py "\newlabel{intro}{{1}{3}{Introduction}{section.1}{}}");
             line (py "\newlabel{usage:install}{{2.1}{5}{Install}{section.2}{}}");
             line (py "\newlabel{intro}{{4}{9}{Again}{section.4}{}}");
             line (py "\newlabel{intro}{{6}{12}{Once more}{section.6}{}}")]
  else if bool_decide (filename = py "/docs/guide.aux")
  then Some [line (py "\newlabel{guide:intro}{{1}{2}}");
             line (py "\@writefile{toc}{\contentsline {section}{1}{2}}");
             line (py "\newlabel{guide:setup}{{2}{4}}")]
  else if bool_decide (filename = py "/docs/broken.aux")
  then Some [line (py "\newlabel{intro}{{1}}")]
  else if bool_decide (filename = py "/docs/clash.aux")
  then Some [line (py "\newlabel{a:x}{{1}{1}}");
             line (py "\newlabel{b:x}{{2}{7}}")]
  else if bool_decide (filename = py "/docs/mixed.aux")
  then Some [line (py "\newlabel{a:x}{{1}{1}}");
             line (py "\newlabel{y}{{2}{7}}")]
  else None.

Definition app_with_mapping (mapping : dict Py.str Py.str) : App := {|
  config := config_with_mapping mapping;
  builder_format := py "latex";
  builder_env := {| intertex_refs := ∅; citations := ∅; citation_refs := ∅ |}
|}.

Definition make_refnode (fromdocname todocname targetid : Py.str) (child : node)
  : node :=
  reference [(py "refuri", todocname ++ py "#" ++ targetid)] [child].

Definition env (refs : gmap Py.str location) : Env := {|
  intertex_refs := refs;
  citations := {[ py "manual" := (py "index", py "id1", 12%Z) ]};
  citation_refs := ∅
|}.

Definition app (format : Py.str) (refs : gmap Py.str location) : App := {|
  config := default_config;
  builder_format := format;
  builder_env := env refs
|}.

Definition app_with_format (reference_format : Py.str) : App := {|
  config := {| intertex_mapping := [];
               intertex_reference_format := reference_format;
               intertex_formats := [py "latex"] |};
  builder_format := py "latex";
  builder_env := env ∅
|}.

Definition xref (target type : Py.str) : pending_xref := {|
  reftarget := target; reftype := type; refdoc := py "usage"
|}.

End Host.

(** ** Vocabulary for the statements *)

(** The nesting depth of braces after [s], read from depth [d]; [None]
    when a closing brace has nothing to close. *)
Fixpoint brace_depth (d : nat) (s : Py.str) : option nat :=
  match s with
  | [] => Some d
  | c :: t =>
      if c =? 123 then brace_depth (S d) t
      else if c =? 125 then
        match d with
        | O => None
        | S d' => brace_depth d' t
        end
      else brace_depth d t
  end.

(** A template has balanced braces when every brace is paired. *)
Definition balanced_braces (s : Py.str) : bool :=
  match brace_depth 0 s with
  | Some O => true
  | _ => false
  end.

(** The four placeholder names of [make_pdf_reference]. *)
Definition known_placeholder (name : Py.str) : bool :=
  bool_decide (name ∈ [py "label"; py "bibref"; py "section"; py "page"]).

(** The list [Re.split] returns, from the matches of the scan. *)
Definition pieces (ms : list (Py.str * Py.str)) (tl : Py.str) : list Py.str :=
  flat_map (fun '(lit, cap) => [lit; cap]) ms ++ [tl].

(** A matcher consumes at least one character. *)
Definition consuming (m : Re.matcher) : Prop :=
  forall s cap rest,
    m s = Some (cap, rest) -> (length rest < length s)%nat.

(** The label, section and page of a line that defines a label: the
    first three brace groups of the arguments of the macro. *)
Definition label_record (line : Py.str) : option (Py.str * Py.str * Py.str) :=
  match AUX_ENTRY_REGEX_match line with
  | None => None
  | Some arguments =>
      match Re.findall BRACKETED_VALUE_REGEX arguments with
      | label :: section :: page :: _ => Some (label, section, page)
      | _ => None
      end
  end.

(** A line is well formed when it does not invoke the macro or has its
    three groups. *)
Definition well_formed_line (line : Py.str) : Prop :=
  AUX_ENTRY_REGEX_match line = None \/ is_Some (label_record line).

(** The index writes of one line, in order: key and location. *)
Definition line_writes (bibentry line : Py.str) : list (Py.str * location) :=
  match label_record line with
  | None => []
  | Some (label, section, page) =>
      List.map (fun target => (target, (bibentry, section, page)))
        (sphinx_targets label)
  end.

(** The index writes of one run over a mapping. *)
Definition mapping_writes (file_lines : Py.str -> option (list Py.str))
    (mapping : dict Py.str Py.str) : list (Py.str * location) :=
  flat_map (fun '(bibentry, aux_filename) =>
              flat_map (line_writes bibentry)
                (default [] (file_lines aux_filename)))
    mapping.

(** The writes to one key, and the location written last. *)
Definition writes_to (key : Py.str) (ws : list (Py.str * location))
  : list (Py.str * location) :=
  List.filter (fun w => bool_decide (fst w = key)) ws.

Definition last_write (key : Py.str) (ws : list (Py.str * location))
  : option location :=
  last (List.map snd (writes_to key ws)).

(** The number of duplicate-label warnings logged for a key. *)
Definition is_duplicate_warning (key : Py.str) (r : logrec) : bool :=
  match r with
  | (WARNING, DefinedMultipleTimes target) => bool_decide (target = key)
  | _ => false
  end.

Definition duplicate_warnings (key : Py.str) (log : list logrec) : nat :=
  length (List.filter (is_duplicate_warning key) log).

(** The label records of the lines of a file, and their index keys. *)
Definition file_records (lines : list Py.str)
  : list (Py.str * Py.str * Py.str) :=
  omap label_record lines.

Definition record_keys (record : Py.str * Py.str * Py.str) : list Py.str :=
  sphinx_targets (fst (fst record)).

Definition file_keys (lines : list Py.str) : list Py.str :=
  flat_map record_keys (file_records lines).

Definition has_colon (record : Py.str * Py.str * Py.str) : bool :=
  Py.contains 58 (fst (fst record)).

(** What holds of the loop state of [read_mapping] and of the log once
    the writes [ws] are done, the log having started as [log0]. *)
Definition index_invariant (log0 : list logrec) (ws : list (Py.str * location))
    (st : reading) (log : list logrec) : Prop :=
  exists extra,
    log = log0 ++ extra
    /\ (forall r, In r extra ->
          exists key, r = (WARNING, DefinedMultipleTimes key))
    /\ (forall key, r_refs st !! key = last_write key ws)
    /\ (forall key, key ∈ r_warned st <-> (2 <= length (writes_to key ws))%nat)
    /\ (forall key,
          duplicate_warnings key extra
          = if bool_decide (2 <= length (writes_to key ws))%nat
            then 1%nat else 0%nat).

(** The typeset-escaped variant of a target, in the words of the
    specification: every character goes through the escaping table of the
    toolchain; what comes out is encoded to ASCII, a character outside
    ASCII becoming its escape marker - a backslash, the letter x, u or U
    and the code of the character in 2, 4 or 8 lower-case hexadecimal
    digits; last, every backslash becomes an underscore. Written
    character by character, the backslash of a marker already an
    underscore. *)
Definition marker_digit (d : N) : N :=
  nth (N.to_nat d) (py "0123456789abcdef") 48.

Fixpoint marker_digits (k : nat) (code : N) : Py.str :=
  match k with
  | O => []
  | S k' => marker_digits k' (N.shiftr code 4) ++ [marker_digit (N.land code 15)]
  end.

Definition escape_marker (c : N) : Py.str :=
  if c <? 256 then py "_x" ++ marker_digits 2 c
  else if c <? 65536 then py "_u" ++ marker_digits 4 c
  else py "_U" ++ marker_digits 8 c.

Definition typeset_escaped_char (c : N) : Py.str :=
  if c =? 92 then py "_"
  else if c <? 128 then [c]
  else escape_marker c.

Definition typeset_escaped (table : gmap N Py.str) (target : Py.str) : Py.str :=
  flat_map
    (fun c => flat_map typeset_escaped_char (default [c] (table !! c)))
    target.

(** The variant of a target with every underscore replaced by a
    hyphen. *)
Definition underscores_to_hyphens (target : Py.str) : Py.str :=
  List.map (fun c => if c =? 95 then 45 else c) target.

Section Vocabulary.

Variable tex_replace_map : gmap N Py.str.
Variable make_refnode : Py.str -> Py.str -> Py.str -> node -> node.

(** The candidate targets of the resolver, laid out in the order the
    specification gives them: the target, the target prefixed with
    "module-" for a module reference, the typeset-escaped variant of each
    of these, then the hyphenated variant of each of the former. *)
Definition candidates (nd : pending_xref) : list Py.str :=
  let base :=
    reftarget nd
    :: (if bool_decide (reftype nd = py "mod")
        then [py "module-" ++ reftarget nd] else []) in
  let escaped := base ++ List.map (typeset_escaped tex_replace_map) base in
  escaped ++ List.map underscores_to_hyphens escaped.

(** The formatted reference for an index entry, as the resolver
    returns it. *)
Definition formatted (app : App) (nd : pending_xref) (contnode : node)
    (loc : location) : M (option node) :=
  let '(bibentry, section, page) := loc in
  do n <- make_pdf_reference make_refnode app bibentry section page contnode
            (refdoc nd);
  ret (Some n).

End Vocabulary.

(** ** Vocabulary for the properties of the parts *)

(** The text a list of split pieces came from: every second piece goes
    back between braces. *)
Fixpoint rejoin (parts : list Py.str) : Py.str :=
  match parts with
  | [] => []
  | [lit] => lit
  | lit :: cap :: rest => lit ++ [123] ++ cap ++ [125] ++ rejoin rest
  end.

(** A matcher whose match is a brace, the capture and a brace. *)
Definition bracketing (m : Re.matcher) : Prop :=
  forall s cap rest, m s = Some (cap, rest) -> s = 123 :: cap ++ 125 :: rest.

(** The text of the substitute of a placeholder name. *)
Definition placeholder_text (contnode bibref : node)
    (section page name : Py.str) : res Py.str :=
  match placeholder contnode bibref section page name with
  | Ok n => Ok (astext n)
  | Raise e => Raise e
  end.

(** A mapping entry whose file opens and holds well-formed lines. *)
Definition readable_entry (file_lines : Py.str -> option (list Py.str))
    (item : Py.str * Py.str) : Prop :=
  exists lines,
    file_lines (snd item) = Some lines /\ Forall well_formed_line lines.

Section PathVocabulary.

Variable module : Type.
Variable import_module : Py.str -> res module.
Variable getsourcefile : module -> res (option Py.str).
Variable dirname : Py.str -> Py.str.
Variable normpath : Py.str -> Py.str.
Variable glob : Py.str -> list Py.str.

(** The files the pattern of an entry matches once its module names are
    substituted; none when a module cannot be imported. *)
Definition entry_matches (item : Py.str * Py.str) : list Py.str :=
  match Re.sub BRACKETED_MODULE_NAME_REGEX
          (module_directory module import_module getsourcefile dirname)
          (snd item) with
  | Ok p => glob (normpath p)
  | Raise _ => []
  end.

(** The entry of the new mapping an entry of the configured mapping
    gives, if any. *)
Definition resolved_entry (item : Py.str * Py.str) : option (Py.str * Py.str) :=
  match entry_matches item with
  | [] => None
  | first :: _ => Some (fst item, first)
  end.

(** The record an entry adds to the log, if any. *)
Definition entry_log (item : Py.str * Py.str) : list logrec :=
  match Re.sub BRACKETED_MODULE_NAME_REGEX
          (module_directory module import_module getsourcefile dirname)
          (snd item) with
  | Raise (ImportError name msg) =>
      [(ERROR, CouldntImportModule name msg (fst item))]
  | Raise _ => []
  | Ok p =>
      match glob (normpath p) with
      | [] => [(ERROR, NoAuxFilesMatching (normpath p) (fst item))]
      | [_] => []
      | first :: _ :: _ =>
          [(ERROR, MultipleAuxFilesMatching (normpath p) (fst item) first)]
      end
  end.

End PathVocabulary.

(** ** The regular expressions and the escaping, run *)

Example findall_aux_args :
  Re.findall BRACKETED_VALUE_REGEX (py "{sec:intro}{{1.2}{7}{Intro}{section.1}{}}")
  = [py "sec:intro"; py "1.2"; py "7"; py "Intro"; py "section.1"; py ""].
Proof. vm_compute. reflexivity. Qed.

Example split_default_format :
  Re.split BRACKETED_VALUE_REGEX (py "{label} ({bibref}, page {page})")
  = [py ""; py "label"; py " ("; py "bibref"; py ", page "; py "page"; py ")"].
Proof. vm_compute. reflexivity. Qed.

Example split_unbalanced :
  Re.split BRACKETED_VALUE_REGEX (py "{label} ({bibref")
  = [py ""; py "label"; py " ({bibref"].
Proof. vm_compute. reflexivity. Qed.

Example backslashreplace_examples :
  Py.ascii_backslashreplace [97; 233; 8364; 128512]
  = py "a\xe9\u20ac\U0001f600".
Proof. vm_compute. reflexivity. Qed.

(** ** The resolver and the citation bridge *)

Section Resolver.

Variable tex_replace_map : gmap N Py.str.
Variable make_refnode : Py.str -> Py.str -> Py.str -> node -> node.

(** C7: when the builder's format is not among [intertex_formats],
    [missing_reference] returns [None] and logs nothing, whatever the
    index holds. *)
Theorem C7_disabled_format_declines
    (app : App) (env : Env) (nd : pending_xref) (contnode : node)
    (log : list logrec) :
  builder_format app ∉ intertex_formats (config app) ->
  missing_reference tex_replace_map make_refnode app env nd contnode log
  = (Ok None, log).
Proof.
  intros Hformat. unfold missing_reference.
  rewrite bool_decide_eq_false_2 by exact Hformat. reflexivity.
Qed.

(** C8: for a key without a citation definition, [get_citation_ref]
    returns the pair of empty strings, and [make_bib_reference] logs one
    warning and returns the plain text node "[key]". *)
Theorem C8_unknown_citation_falls_back
    (app : App) (bibentry refdoc : Py.str) (log : list logrec) :
  citations (builder_env app) !! bibentry = None ->
  get_citation_ref (builder_env app) bibentry = (py "", py "")
  /\ make_bib_reference make_refnode app bibentry refdoc log
     = (Ok (Text (py "[" ++ bibentry ++ py "]")),
        log ++ [(WARNING, NoCitationFor bibentry)]).
Proof.
  intros Hnone.
  assert (Hget : get_citation_ref (builder_env app) bibentry = (py "", py "")).
  { unfold get_citation_ref. rewrite Hnone. reflexivity. }
  split; [exact Hget|].
  unfold make_bib_reference. rewrite Hget. reflexivity.
Qed.

End Resolver.

(** C7 at a request whose target is in the index, for an HTML build. *)
Lemma C7_witness :
  missing_reference Host.tex_replace_map Host.make_refnode
    (Host.app (py "html") {[ py "intro" := (py "manual", py "1", py "3") ]})
    (Host.env {[ py "intro" := (py "manual", py "1", py "3") ]})
    (Host.xref (py "intro") (py "ref")) (Text (py "Introduction")) []
  = (Ok None, []).
Proof.
  apply C7_disabled_format_declines.
  apply (bool_decide_eq_false_1 _). vm_compute. reflexivity.
Defined.

(** C8 at a key the citation domain does not define. *)
Lemma C8_witness :
  get_citation_ref (Host.env ∅) (py "guide") = (py "", py "")
  /\ make_bib_reference Host.make_refnode (Host.app (py "latex") ∅)
       (py "guide") (py "usage") []
     = (Ok (Text (py "[guide]")), [(WARNING, NoCitationFor (py "guide"))]).
Proof.
  apply (C8_unknown_citation_falls_back Host.make_refnode
           (Host.app (py "latex") ∅) (py "guide") (py "usage") []).
  vm_compute. reflexivity.
Defined.

(** ** Formatting a reference *)

Section Formatting.

Variable make_refnode : Py.str -> Py.str -> Py.str -> node -> node.

(** [make_bib_reference] never raises. *)
Lemma make_bib_reference_returns (app : App) (bibentry refdoc : Py.str)
    (log : list logrec) :
  exists bibref log',
    make_bib_reference make_refnode app bibentry refdoc log = (Ok bibref, log').
Proof.
  unfold make_bib_reference.
  destruct (get_citation_ref (builder_env app) bibentry) as [docname labelid].
  destruct docname as [|c docname]; [eexists _, _; reflexivity|].
  case_bool_decide; eexists _, _; reflexivity.
Qed.

(** Whichever node [make_bib_reference] builds, it reads "[key]",
    provided the reference built by Sphinx reads as its child. *)
Lemma make_bib_reference_astext (app : App) (bibentry refdoc : Py.str)
    (log log' : list logrec) (bibref : node) :
  (forall a b c child, astext (make_refnode a b c child) = astext child) ->
  make_bib_reference make_refnode app bibentry refdoc log = (Ok bibref, log') ->
  astext bibref = bracketed bibentry.
Proof.
  intros Hrefnode. unfold make_bib_reference.
  destruct (get_citation_ref (builder_env app) bibentry) as [docname labelid].
  destruct docname as [|c docname].
  - intros [= <- _]. reflexivity.
  - case_bool_decide; intros [= <- _].
    + cbn [astext List.map concat]. apply app_nil_r.
    + rewrite Hrefnode. reflexivity.
Qed.

(** C9: with the default format, a label node reading "Fig 1", the
    bibliography entry "doc", section "2" and page "5",
    [make_pdf_reference] returns an inline node whose children are the
    literal pieces of the format alternating with the substituted nodes,
    and whose text is "Fig 1 ([doc], page 5)". *)
Theorem C9_default_format_renders
    (app : App) (contnode : node) (refdoc : Py.str) (log : list logrec) :
  intertex_reference_format (config app) = py "{label} ({bibref}, page {page})" ->
  astext contnode = py "Fig 1" ->
  (forall a b c child, astext (make_refnode a b c child) = astext child) ->
  exists bibref log',
    astext bibref = py "[doc]"
    /\ make_pdf_reference make_refnode app (py "doc") (py "2") (py "5")
         contnode refdoc log
       = (Ok (inline [Text (py ""); contnode; Text (py " ("); bibref;
                      Text (py ", page "); Text (py "5"); Text (py ")")]),
          log')
    /\ astext (inline [Text (py ""); contnode; Text (py " ("); bibref;
                       Text (py ", page "); Text (py "5"); Text (py ")")])
       = py "Fig 1 ([doc], page 5)".
Proof.
  intros Hformat Hlabel Hrefnode.
  destruct (make_bib_reference_returns app (py "doc") refdoc log)
    as (bibref & log' & Hbib).
  pose proof (make_bib_reference_astext _ _ _ _ _ _ Hrefnode Hbib) as Htext.
  exists bibref, log'. split; [exact Htext|]. split.
  - unfold make_pdf_reference, bind. rewrite Hbib, Hformat.
    rewrite split_default_format. reflexivity.
  - cbn [astext List.map concat]. rewrite Hlabel, Htext. reflexivity.
Qed.

End Formatting.

(** C9 for an HTML build that knows the citation "doc". *)
Lemma C9_witness :
  exists bibref log',
    astext bibref = py "[doc]"
    /\ make_pdf_reference Host.make_refnode
         {| config := default_config; builder_format := py "html";
            builder_env := {| intertex_refs := ∅;
                              citations := {[ py "doc" := (py "refs", py "id3", 4%Z) ]};
                              citation_refs := ∅ |} |}
         (py "doc") (py "2") (py "5") (inline [Text (py "Fig"); Text (py " 1")])
         (py "usage") []
       = (Ok (inline [Text (py ""); inline [Text (py "Fig"); Text (py " 1")];
                      Text (py " ("); bibref;
                      Text (py ", page "); Text (py "5"); Text (py ")")]),
          log')
    /\ astext (inline [Text (py ""); inline [Text (py "Fig"); Text (py " 1")];
                       Text (py " ("); bibref;
                       Text (py ", page "); Text (py "5"); Text (py ")")])
       = py "Fig 1 ([doc], page 5)".
Proof.
  apply (C9_default_format_renders Host.make_refnode).
  - reflexivity.
  - vm_compute. reflexivity.
  - intros a b c child. cbn [Host.make_refnode astext List.map concat].
    apply app_nil_r.
Defined.

(** ** Malformed reference formats *)

Section Templates.

Variable make_refnode : Py.str -> Py.str -> Py.str -> node -> node.

Lemma placeholder_known (contnode bibref : node) (section page name : Py.str) :
  known_placeholder name = true ->
  exists n, placeholder contnode bibref section page name = Ok n.
Proof.
  intros Hknown. apply bool_decide_eq_true_1 in Hknown.
  rewrite !elem_of_cons, elem_of_nil in Hknown.
  unfold placeholder. repeat case_bool_decide; try (eexists; reflexivity).
  exfalso. tauto.
Qed.

Lemma placeholder_unknown (contnode bibref : node) (section page name : Py.str) :
  known_placeholder name = false ->
  placeholder contnode bibref section page name = Raise (KeyError name).
Proof.
  intros Hunknown. apply bool_decide_eq_false_1 in Hunknown.
  rewrite !elem_of_cons, elem_of_nil in Hunknown.
  unfold placeholder.
  repeat case_bool_decide; try reflexivity; exfalso; tauto.
Qed.

Lemma split_pieces (m : Re.matcher) (s : Py.str) :
  Re.split m s = pieces (fst (Re.finditer m s)) (snd (Re.finditer m s)).
Proof. unfold Re.split. destruct (Re.finditer m s). reflexivity. Qed.

(** When every captured name has a substitute the loop returns. *)
Lemma fill_format_all_known (subst : Py.str -> res node)
    (ms : list (Py.str * Py.str)) (tl : Py.str) (acc : list node) :
  (forall name, In name (List.map snd ms) -> exists n, subst name = Ok n) ->
  exists children, fill_format subst (pieces ms tl) acc = Ok children.
Proof.
  revert acc. induction ms as [|[lit cap] ms IH]; intros acc Hall.
  - eexists. reflexivity.
  - destruct (Hall cap) as [n Hn]; [left; reflexivity|].
    unfold pieces. cbn [flat_map app fill_format]. rewrite Hn.
    apply IH. intros name Hin. apply Hall. right. exact Hin.
Qed.

(** When some captured name has none, the first such name raises. *)
Lemma fill_format_some_unknown (subst : Py.str -> res node)
    (ms : list (Py.str * Py.str)) (tl : Py.str) (acc : list node) :
  (forall name, (exists n, subst name = Ok n) \/ subst name = Raise (KeyError name)) ->
  (exists name, In name (List.map snd ms) /\ subst name = Raise (KeyError name)) ->
  exists name, In name (List.map snd ms)
    /\ subst name = Raise (KeyError name)
    /\ fill_format subst (pieces ms tl) acc = Raise (KeyError name).
Proof.
  intros Hsubst. revert acc.
  induction ms as [|[lit cap] ms IH]; intros acc (name & Hin & Hname).
  - destruct Hin.
  - unfold pieces. cbn [flat_map app fill_format].
    destruct (Hsubst cap) as [[n Hn]|Hraise].
    + rewrite Hn. cbn [List.map snd] in Hin.
      destruct Hin as [<-|Hin]; [congruence|].
      destruct (IH (((acc ++ [Text lit]) ++ [n])) (ex_intro _ name (conj Hin Hname)))
        as (name' & Hin' & Hname' & Hfill).
      exists name'. split; [right; exact Hin'|]. split; assumption.
    + exists cap. rewrite Hraise. split; [left; reflexivity|]. split; reflexivity.
Qed.

(** C4, amended: [make_pdf_reference] raises [KeyError] when the format
    has a brace group (an opening brace, no brace in between, a closing
    brace) whose name is not one of label, bibref, section and page; when
    every brace group names one of them it returns a node, whether or
    not the braces around the groups are balanced. *)
Theorem C4_unknown_placeholder_raises
    (app : App) (bibentry section page : Py.str) (contnode : node)
    (refdoc : Py.str) (log : list logrec) :
  let names := Re.findall BRACKETED_VALUE_REGEX
                 (intertex_reference_format (config app)) in
  let result := make_pdf_reference make_refnode app bibentry section page
                  contnode refdoc log in
  ((exists name, In name names /\ known_placeholder name = false) ->
   exists name, In name names /\ known_placeholder name = false
     /\ fst result = Raise (KeyError name))
  /\ ((forall name, In name names -> known_placeholder name = true) ->
      exists children, fst result = Ok (inline children)).
Proof.
  intros names result. subst names result.
  destruct (make_bib_reference_returns make_refnode app bibentry refdoc log)
    as (bibref & log' & Hbib).
  unfold make_pdf_reference, bind, Re.findall. rewrite Hbib, split_pieces.
  set (ms := fst (Re.finditer _ _)). set (tl := snd (Re.finditer _ _)).
  unfold lift. split.
  - intros (name & Hin & Hname).
    destruct (fill_format_some_unknown
                (placeholder contnode bibref section page) ms tl [])
      as (name' & Hin' & Hname' & Hfill).
    + intros n. destruct (known_placeholder n) eqn:E.
      * left. apply placeholder_known. exact E.
      * right. apply placeholder_unknown. exact E.
    + exists name. split; [exact Hin|]. apply placeholder_unknown. exact Hname.
    + exists name'. split; [exact Hin'|]. split.
      * destruct (known_placeholder name') eqn:E; [|reflexivity].
        destruct (placeholder_known contnode bibref section page name' E)
          as [n Hn]. congruence.
      * rewrite Hfill. reflexivity.
  - intros Hall.
    destruct (fill_format_all_known
                (placeholder contnode bibref section page) ms tl [])
      as [children Hfill].
    + intros name Hin. apply placeholder_known, Hall, Hin.
    + exists children. rewrite Hfill. reflexivity.
Qed.

End Templates.

(** C4 as stated fails: a format whose braces are unbalanced is accepted,
    the stray brace and what follows it being kept as literal text. *)
Lemma C4_counterexample :
  balanced_braces (py "{label} ({bibref") = false
  /\ make_pdf_reference Host.make_refnode
       (Host.app_with_format (py "{label} ({bibref"))
       (py "manual") (py "2") (py "5") (Text (py "Fig 1")) (py "usage") []
     = (Ok (inline [Text (py ""); Text (py "Fig 1"); Text (py " ({bibref")]), []).
Proof. split; vm_compute; reflexivity. Qed.

(** C4, amended, at a format naming the unknown placeholder "chapter". *)
Lemma C4_witness :
  exists name,
    In name (Re.findall BRACKETED_VALUE_REGEX (py "{label}, {chapter} {page}"))
    /\ known_placeholder name = false
    /\ fst (make_pdf_reference Host.make_refnode
              (Host.app_with_format (py "{label}, {chapter} {page}"))
              (py "manual") (py "2") (py "5") (Text (py "Fig 1")) (py "usage") [])
       = Raise (KeyError name).
Proof.
  apply (proj1 (C4_unknown_placeholder_raises Host.make_refnode
                  (Host.app_with_format (py "{label}, {chapter} {page}"))
                  (py "manual") (py "2") (py "5") (Text (py "Fig 1"))
                  (py "usage") [])).
  exists (py "chapter"). split.
  - vm_compute. right. left. reflexivity.
  - vm_compute. reflexivity.
Defined.

(** ** The candidate targets of the resolver *)

Lemma append_each_app {A} (f : A -> A) (xs : list A) :
  append_each f xs = xs ++ List.map f xs.
Proof.
  unfold append_each.
  cut (forall ys acc,
          fold_left (fun acc x => acc ++ [f x]) ys acc = acc ++ List.map f ys).
  { intros H. apply H. }
  induction ys as [|y ys IH]; intros acc; cbn [fold_left List.map].
  - symmetry. apply app_nil_r.
  - rewrite IH, <- app_assoc. reflexivity.
Qed.

Lemma marker_digit_of_hex_digit (d : N) :
  d < 16 ->
  (if Py.hex_digit d =? 92 then 95 else Py.hex_digit d) = marker_digit d.
Proof.
  intros Hd. destruct d as [|p]; [reflexivity|].
  do 4 (destruct p as [p|p|]; try reflexivity); lia.
Qed.

(** The digits of a marker hold no backslash, and are the digits the
    code writes. *)
Lemma marker_digits_of_hex (k : nat) (code : N) :
  Py.replace 92 95 (Py.hex k code) = marker_digits k code.
Proof.
  revert code. induction k as [|k IH]; intros code; [reflexivity|].
  cbn [Py.hex marker_digits]. unfold Py.replace in *.
  rewrite List.map_app, IH. cbn [List.map].
  change 16 with (2 ^ 4). rewrite <- N.shiftr_div_pow2.
  change 15 with (N.ones 4). rewrite N.land_ones.
  rewrite marker_digit_of_hex_digit; [reflexivity|].
  apply N.mod_lt. discriminate.
Qed.

Lemma typeset_escaped_char_of_backslashreplace (c : N) :
  Py.replace 92 95 (Py.backslashreplace_char c) = typeset_escaped_char c.
Proof.
  unfold Py.backslashreplace_char, typeset_escaped_char, escape_marker.
  destruct (c <? 128) eqn:Hascii.
  - cbn. destruct (c =? 92); reflexivity.
  - assert (Hc : (c =? 92) = false).
    { apply N.eqb_neq. intros ->. discriminate. }
    rewrite Hc.
    destruct (c <? 256); [|destruct (c <? 65536)];
      unfold Py.replace; rewrite List.map_app;
      fold (Py.replace 92 95 (Py.hex 2 c)); fold (Py.replace 92 95 (Py.hex 4 c));
      fold (Py.replace 92 95 (Py.hex 8 c));
      rewrite marker_digits_of_hex; reflexivity.
Qed.

Lemma map_flat_map {A B C} (f : B -> C) (g : A -> list B) (l : list A) :
  List.map f (flat_map g l) = flat_map (fun x => List.map f (g x)) l.
Proof.
  induction l as [|x l IH]; [reflexivity|].
  cbn [flat_map]. rewrite List.map_app, IH. reflexivity.
Qed.

Lemma flat_map_flat_map {A B C} (f : B -> list C) (g : A -> list B)
    (l : list A) :
  flat_map f (flat_map g l) = flat_map (fun x => flat_map f (g x)) l.
Proof.
  induction l as [|x l IH]; [reflexivity|].
  cbn [flat_map]. rewrite flat_map_app, IH. reflexivity.
Qed.

(** The label as the code normalises it is the typeset-escaped variant
    of the specification. *)
Lemma tex_label_typeset_escaped (table : gmap N Py.str) (target : Py.str) :
  tex_label table target = typeset_escaped table target.
Proof.
  unfold tex_label, typeset_escaped, Py.ascii_backslashreplace, Py.translate.
  unfold Py.replace at 1.
  rewrite flat_map_flat_map, map_flat_map.
  apply flat_map_ext. intros c.
  assert (Hsame : match table !! c with Some r => r | None => [c] end
                  = default [c] (table !! c)).
  { destruct (table !! c); reflexivity. }
  rewrite Hsame. rewrite map_flat_map. apply flat_map_ext. intros x.
  apply typeset_escaped_char_of_backslashreplace.
Qed.

Section Candidates.

Variable tex_replace_map : gmap N Py.str.
Variable make_refnode : Py.str -> Py.str -> Py.str -> node -> node.

Lemma reftargets_to_try_candidates (nd : pending_xref) :
  reftargets_to_try tex_replace_map nd = candidates tex_replace_map nd.
Proof.
  unfold reftargets_to_try, candidates. rewrite !append_each_app.
  rewrite (List.map_ext _ _ (tex_label_typeset_escaped tex_replace_map)).
  case_bool_decide; reflexivity.
Qed.

(** The loop returns at the first target the index holds. *)
Lemma try_reftargets_first_hit (app : App) (env : Env) (nd : pending_xref)
    (contnode : node) (targets : list Py.str) (log : list logrec) :
  (exists tried key rest loc,
      targets = tried ++ key :: rest
      /\ Forall (fun c => intertex_refs env !! c = None) tried
      /\ intertex_refs env !! key = Some loc
      /\ try_reftargets make_refnode app env nd contnode targets log
         = formatted make_refnode app nd contnode loc log)
  \/ (Forall (fun c => intertex_refs env !! c = None) targets
      /\ try_reftargets make_refnode app env nd contnode targets log
         = (Ok None, log)).
Proof.
  induction targets as [|t targets IH].
  - right. split; [constructor | reflexivity].
  - cbn [try_reftargets].
    destruct (intertex_refs env !! t) as [[[bibentry section] page]|] eqn:Ht.
    + left. exists [], t, targets, (bibentry, section, page).
      repeat split; [constructor | exact Ht].
    + destruct IH as [(tried & key & rest & loc & -> & Htried & Hkey & Hres)
                     |[Hnone Hres]].
      * left. exists (t :: tried), key, rest, loc.
        repeat split; [constructor; assumption | exact Hkey | exact Hres].
      * right. split; [constructor; assumption | exact Hres].
Qed.

(** With a reference format all of whose brace groups name a
    placeholder, [make_pdf_reference] returns a node. *)
Lemma make_pdf_reference_returns (app : App) (bibentry section page : Py.str)
    (contnode : node) (refdoc : Py.str) (log : list logrec) :
  (forall name,
      In name (Re.findall BRACKETED_VALUE_REGEX
                 (intertex_reference_format (config app))) ->
      known_placeholder name = true) ->
  exists n log',
    make_pdf_reference make_refnode app bibentry section page contnode refdoc
      log = (Ok n, log').
Proof.
  intros Hknown.
  destruct (make_bib_reference_returns make_refnode app bibentry refdoc log)
    as (bibref & log' & Hbib).
  unfold make_pdf_reference, bind, lift, ret. rewrite Hbib, split_pieces.
  destruct (fill_format_all_known
              (placeholder contnode bibref section page)
              (fst (Re.finditer BRACKETED_VALUE_REGEX
                      (intertex_reference_format (config app))))
              (snd (Re.finditer BRACKETED_VALUE_REGEX
                      (intertex_reference_format (config app)))) [])
    as [children Hfill].
  - intros name Hin.
    apply (placeholder_known make_refnode), Hknown, Hin.
  - rewrite Hfill. eexists _, _. reflexivity.
Qed.

(** C1, amended: for an enabled format and a reference format all of
    whose brace groups name one of label, bibref, section and page, the
    targets tried are, in this order, the requested target, the target
    prefixed with "module-" for a module reference, the typeset-escaped
    variant of each of these, then the variant with hyphens for
    underscores of each of the former; [missing_reference] returns the
    node [make_pdf_reference] builds from the location of the first of
    them found in the index, and [None] when none is found. A request for
    "foo_bar" then succeeds against an index that only holds "foo-bar". *)
Theorem C1_first_candidate_in_index_wins
    (app : App) (env : Env) (nd : pending_xref) (contnode : node)
    (log : list logrec) :
  builder_format app ∈ intertex_formats (config app) ->
  (forall name,
      In name (Re.findall BRACKETED_VALUE_REGEX
                 (intertex_reference_format (config app))) ->
      known_placeholder name = true) ->
  let result :=
    missing_reference tex_replace_map make_refnode app env nd contnode log in
  reftargets_to_try tex_replace_map nd = candidates tex_replace_map nd
  /\ ((exists tried key rest bibentry section page n log',
          candidates tex_replace_map nd = tried ++ key :: rest
          /\ Forall (fun c => intertex_refs env !! c = None) tried
          /\ intertex_refs env !! key = Some (bibentry, section, page)
          /\ make_pdf_reference make_refnode app bibentry section page
               contnode (refdoc nd) log = (Ok n, log')
          /\ result = (Ok (Some n), log'))
      \/ (Forall (fun c => intertex_refs env !! c = None)
             (candidates tex_replace_map nd)
          /\ result = (Ok None, log)))
  /\ (forall bibentry section page,
        reftarget nd = py "foo_bar" ->
        intertex_refs env = {[ py "foo-bar" := (bibentry, section, page) ]} ->
        exists n log',
          make_pdf_reference make_refnode app bibentry section page
            contnode (refdoc nd) log = (Ok n, log')
          /\ result = (Ok (Some n), log')).
Proof.
  intros Hformat Hknown result.
  assert (Hresult : result
    = try_reftargets make_refnode app env nd contnode
        (candidates tex_replace_map nd) log).
  { subst result. unfold missing_reference.
    rewrite bool_decide_eq_true_2 by exact Hformat.
    rewrite reftargets_to_try_candidates. reflexivity. }
  assert (Hhit : forall bibentry section page,
    exists n log',
      make_pdf_reference make_refnode app bibentry section page contnode
        (refdoc nd) log = (Ok n, log')
      /\ formatted make_refnode app nd contnode (bibentry, section, page) log
         = (Ok (Some n), log')).
  { intros bibentry section page.
    destruct (make_pdf_reference_returns app bibentry section page contnode
                (refdoc nd) log Hknown) as (n & log' & Hpdf).
    exists n, log'. split; [exact Hpdf|].
    unfold formatted, bind, ret. rewrite Hpdf. reflexivity. }
  split; [apply reftargets_to_try_candidates|].
  rewrite Hresult. split.
  - destruct (try_reftargets_first_hit app env nd contnode
                (candidates tex_replace_map nd) log)
      as [(tried & key & rest & [[bibentry section] page] & Hsplit & Htried
           & Hkey & ->)|[Hnone ->]].
    + left. destruct (Hhit bibentry section page) as (n & log' & Hpdf & ->).
      exists tried, key, rest, bibentry, section, page, n, log'. auto.
    + right. split; [exact Hnone | reflexivity].
  - intros bibentry section page Htarget Hrefs.
    destruct (try_reftargets_first_hit app env nd contnode
                (candidates tex_replace_map nd) log)
      as [(tried & key & rest & loc' & _ & _ & Hkey & ->)|[Hnone _]].
    + rewrite Hrefs in Hkey. apply lookup_singleton_Some in Hkey as [_ <-].
      destruct (Hhit bibentry section page) as (n & log' & Hpdf & ->).
      exists n, log'. split; [exact Hpdf | reflexivity].
    + exfalso. rewrite Forall_forall in Hnone.
      assert (Hin : py "foo-bar" ∈ candidates tex_replace_map nd).
      { unfold candidates. rewrite Htarget.
        apply elem_of_app. right. cbn [Datatypes.app List.map].
        change (py "foo-bar") with (underscores_to_hyphens (py "foo_bar")).
        apply list_elem_of_here. }
      specialize (Hnone _ Hin). rewrite Hrefs, lookup_singleton_eq in Hnone.
      discriminate.
Qed.

End Candidates.

(** C1 as stated fails: with the reference format "{chapter}", a request
    for "foo_bar" in an enabled format against an index that holds
    "foo-bar" finds the location and then raises [KeyError] instead of
    returning a formatted reference. *)
Lemma C1_counterexample :
  let app := {| config := {| intertex_mapping := [];
                             intertex_reference_format := py "{chapter}";
                             intertex_formats := [py "latex"] |};
                builder_format := py "latex";
                builder_env :=
                  Host.env {[ py "foo-bar" := (py "manual", py "2", py "5") ]} |} in
  bool_decide (builder_format app ∈ intertex_formats (config app)) = true
  /\ intertex_refs (builder_env app) !! py "foo-bar"
     = Some (py "manual", py "2", py "5")
  /\ missing_reference Host.tex_replace_map Host.make_refnode app
       (builder_env app) (Host.xref (py "foo_bar") (py "ref"))
       (Text (py "foo_bar")) []
     = (Raise (KeyError (py "chapter")), []).
Proof. vm_compute. auto. Qed.

(** C1, amended, at a request for "foo_bar" against an index holding
    "foo-bar", with the default reference format. *)
Lemma C1_witness :
  exists n log',
    make_pdf_reference Host.make_refnode
      (Host.app (py "latex") {[ py "foo-bar" := (py "manual", py "2", py "5") ]})
      (py "manual") (py "2") (py "5") (Text (py "foo_bar")) (py "usage") []
    = (Ok n, log')
    /\ missing_reference Host.tex_replace_map Host.make_refnode
         (Host.app (py "latex")
            {[ py "foo-bar" := (py "manual", py "2", py "5") ]})
         (Host.env {[ py "foo-bar" := (py "manual", py "2", py "5") ]})
         (Host.xref (py "foo_bar") (py "ref")) (Text (py "foo_bar")) []
       = (Ok (Some n), log').
Proof.
  apply (C1_first_candidate_in_index_wins Host.tex_replace_map
           Host.make_refnode
           (Host.app (py "latex")
              {[ py "foo-bar" := (py "manual", py "2", py "5") ]})
           (Host.env {[ py "foo-bar" := (py "manual", py "2", py "5") ]})
           (Host.xref (py "foo_bar") (py "ref")) (Text (py "foo_bar")) []);
    [| |reflexivity|reflexivity].
  - apply (bool_decide_eq_true_1 _). vm_compute. reflexivity.
  - intros name Hin. vm_compute in Hin.
    repeat (destruct Hin as [<-|Hin]; [vm_compute; reflexivity|]).
    destruct Hin.
Defined.

Example resolve_foo_bar :
  missing_reference Host.tex_replace_map Host.make_refnode
    (Host.app (py "latex") {[ py "foo-bar" := (py "manual", py "2", py "5") ]})
    (Host.env {[ py "foo-bar" := (py "manual", py "2", py "5") ]})
    (Host.xref (py "foo_bar") (py "ref")) (Text (py "foo_bar")) []
  = (Ok (Some (inline
       [Text (py ""); Text (py "foo_bar"); Text (py " (");
        citation_reference (py "index") (py "id1") [Text (py "[manual]")];
        Text (py ", page "); Text (py "5"); Text (py ")")])), []).
Proof. vm_compute. reflexivity. Qed.

Example escaped_variant :
  tex_label Host.tex_replace_map (py "a$b\c" ++ [233; 8364; 128512])
  = py "a_b_c_xe9__U0001f600"
  /\ typeset_escaped Host.tex_replace_map (py "a$b\c" ++ [233; 8364; 128512])
     = py "a_b_c_xe9__U0001f600".
Proof. vm_compute. auto. Qed.

Example candidates_of_module_reference :
  reftargets_to_try Host.tex_replace_map (Host.xref (py "os_path") (py "mod"))
  = [py "os_path"; py "module-os_path"; py "os_path"; py "module-os_path";
     py "os-path"; py "module-os-path"; py "os-path"; py "module-os-path"].
Proof. vm_compute. reflexivity. Qed.

(** ** The scanner *)

Lemma span_app (f : N -> bool) (s : Py.str) :
  fst (Py.span f s) ++ snd (Py.span f s) = s.
Proof.
  induction s as [|c t IH]; [reflexivity|]. cbn [Py.span].
  destruct (f c); [|reflexivity].
  destruct (Py.span f t) as [a b]. cbn in *. congruence.
Qed.

Lemma span_all (f : N -> bool) (a : Py.str) (c : N) (rest : Py.str) :
  forallb f a = true -> f c = false ->
  Py.span f (a ++ c :: rest) = (a, c :: rest).
Proof.
  intros Ha Hc. induction a as [|x a IH]; cbn [Py.span Datatypes.app].
  - rewrite Hc. reflexivity.
  - cbn [forallb] in Ha. apply andb_prop in Ha as [Hx Ha].
    rewrite Hx, (IH Ha). reflexivity.
Qed.

Lemma BRACKETED_MODULE_NAME_REGEX_consuming :
  consuming BRACKETED_MODULE_NAME_REGEX.
Proof.
  intros s cap rest. unfold BRACKETED_MODULE_NAME_REGEX.
  destruct s as [|c t]; [discriminate|].
  destruct (N.eq_dec c 123) as [->|Hc].
  - pose proof (span_app is_module_name_char t) as Happ.
    destruct (Py.span is_module_name_char t) as [[|x name] [|d after]];
      try discriminate.
    destruct (N.eq_dec d 125) as [->|Hd].
    + intros [= <- <-]. rewrite <- Happ. cbn. rewrite length_app. cbn. lia.
    + intros H. exfalso. revert H.
      destruct d as [|p]; [discriminate|].
      do 7 (destruct p as [p|p|]; try discriminate). congruence.
  - intros H. exfalso. revert H.
    destruct c as [|p]; [discriminate|].
    do 7 (destruct p as [p|p|]; try discriminate). congruence.
Qed.

Section Scanner.

Variable m : Re.matcher.
Hypothesis m_consuming : consuming m.

(** Any fuel above the length of the input gives the same scan. *)
Lemma finditer_fuel_enough (fuel1 fuel2 : nat) (s : Py.str) :
  (length s < fuel1)%nat -> (length s < fuel2)%nat ->
  Re.finditer_fuel fuel1 m s = Re.finditer_fuel fuel2 m s.
Proof.
  revert fuel2 s. induction fuel1 as [|fuel1 IH]; intros fuel2 s H1 H2; [lia|].
  destruct fuel2 as [|fuel2]; [lia|].
  destruct s as [|c t]; [reflexivity|]. cbn [Re.finditer_fuel].
  destruct (m (c :: t)) as [[cap rest]|] eqn:Hm.
  - apply m_consuming in Hm. cbn [length] in *.
    rewrite (IH fuel2 rest) by lia. reflexivity.
  - cbn [length] in *. rewrite (IH fuel2 t) by lia. reflexivity.
Qed.

Lemma finditer_fuel_cons (fuel : nat) (c : N) (t : Py.str) :
  Re.finditer_fuel (S fuel) m (c :: t)
  = match m (c :: t) with
    | Some (cap, rest) =>
        let '(ms, tl) := Re.finditer_fuel fuel m rest in (([], cap) :: ms, tl)
    | None =>
        match Re.finditer_fuel fuel m t with
        | ([], tl) => ([], c :: tl)
        | ((lit, cap) :: ms, tl) => ((c :: lit, cap) :: ms, tl)
        end
    end.
Proof. reflexivity. Qed.

Lemma finditer_match (c : N) (t cap rest : Py.str) :
  m (c :: t) = Some (cap, rest) ->
  Re.finditer m (c :: t)
  = (([], cap) :: fst (Re.finditer m rest), snd (Re.finditer m rest)).
Proof.
  intros Hm. unfold Re.finditer. rewrite finditer_fuel_cons, Hm.
  apply m_consuming in Hm.
  rewrite (finditer_fuel_enough _ (S (length rest)) rest) by lia.
  destruct (Re.finditer_fuel _ m rest). reflexivity.
Qed.

Lemma finditer_no_match (c : N) (t : Py.str) :
  m (c :: t) = None ->
  Re.finditer m (c :: t)
  = match Re.finditer m t with
    | ([], tl) => ([], c :: tl)
    | ((lit, cap) :: ms, tl) => ((c :: lit, cap) :: ms, tl)
    end.
Proof.
  intros Hm. unfold Re.finditer. rewrite finditer_fuel_cons, Hm.
  rewrite (finditer_fuel_enough _ (S (length t)) t) by (cbn [length]; lia).
  reflexivity.
Qed.

(** Substitution over text that holds no match before its first match. *)
Lemma sub_first_match (repl : Py.str -> res Py.str)
    (lit : Py.str) (c : N) (t cap rest : Py.str) :
  (forall x suffix, x ∈ lit -> m (x :: suffix) = None) ->
  m (c :: t) = Some (cap, rest) ->
  Re.sub m repl (lit ++ c :: t)
  = match repl cap with
    | Raise e => Raise e
    | Ok r =>
        match Re.sub m repl rest with
        | Raise e => Raise e
        | Ok out => Ok (lit ++ r ++ out)
        end
    end.
Proof.
  intros Hlit Hm. unfold Re.sub.
  assert (Hscan : Re.finditer m (lit ++ c :: t)
    = ((lit, cap) :: fst (Re.finditer m rest), snd (Re.finditer m rest))).
  { induction lit as [|x lit IH]; cbn [Datatypes.app].
    - apply finditer_match, Hm.
    - rewrite finditer_no_match by (apply Hlit; left).
      rewrite IH; [reflexivity|].
      intros y suffix Hy. apply Hlit. right. exact Hy. }
  rewrite Hscan. destruct (Re.finditer m rest) as [ms tl].
  reflexivity.
Qed.

End Scanner.

(** ** The path resolver *)

Lemma module_token_matches (name rest : Py.str) :
  name <> [] -> forallb is_module_name_char name = true ->
  BRACKETED_MODULE_NAME_REGEX (123 :: name ++ 125 :: rest) = Some (name, rest).
Proof.
  intros Hname Hchars. unfold BRACKETED_MODULE_NAME_REGEX.
  rewrite span_all by (exact Hchars || reflexivity).
  destruct name; [contradiction | reflexivity].
Qed.

Lemma module_token_needs_brace (x : N) (suffix : Py.str) :
  x <> 123 -> BRACKETED_MODULE_NAME_REGEX (x :: suffix) = None.
Proof.
  intros Hx. unfold BRACKETED_MODULE_NAME_REGEX.
  destruct x as [|p]; [reflexivity|].
  do 7 (destruct p as [p|p|]; try reflexivity). congruence.
Qed.

(** An invariant of the loop state that every iteration keeps holds
    when the loop returns. *)
Lemma for_each_invariant {A S} (P : S -> Prop) (body : A -> S -> M S)
    (xs : list A) (s s' : S) (log log' : list logrec) :
  (forall x t t' l l', In x xs -> P t -> body x t l = (Ok t', l') -> P t') ->
  P s -> for_each body xs s log = (Ok s', log') -> P s'.
Proof.
  revert s log. induction xs as [|x xs IH]; intros s log Hbody Hs.
  - intros [= <- _]. exact Hs.
  - cbn [for_each]. unfold bind.
    destruct (body x s log) as [[t|e] l] eqn:Hx; [|discriminate].
    apply IH.
    + intros y u u' k k' Hy. apply Hbody. right. exact Hy.
    + eapply Hbody; [left; reflexivity | exact Hs | exact Hx].
Qed.

Lemma dict_set_In {V} (k k' : Py.str) (v v' : V) (d : dict Py.str V) :
  In (k', v') (dict_set k v d) -> (k' = k /\ v' = v) \/ In (k', v') d.
Proof.
  induction d as [|[k0 v0] d IH]; cbn [dict_set].
  - intros [[= <- <-]|[]]. left. split; reflexivity.
  - case_bool_decide.
    + intros [[= <- <-]|Hin]; [left; split; reflexivity|].
      right. right. exact Hin.
    + intros [Heq|Hin]; [right; left; exact Heq|].
      destruct (IH Hin) as [Hnew|Hold]; [left; exact Hnew|].
      right. right. exact Hold.
Qed.

Lemma dict_set_keys {V} (k k' : Py.str) (v : V) (d : dict Py.str V) :
  In k' (List.map fst (dict_set k v d)) -> k' = k \/ In k' (List.map fst d).
Proof.
  intros Hin. apply in_map_iff in Hin as ([k0 v0] & <- & Hin).
  apply dict_set_In in Hin as [[-> _]|Hin]; [left; reflexivity|].
  right. apply in_map_iff. exists (k0, v0). split; [reflexivity | exact Hin].
Qed.

Lemma dict_set_NoDup {V} (k : Py.str) (v : V) (d : dict Py.str V) :
  List.NoDup (List.map fst d) -> List.NoDup (List.map fst (dict_set k v d)).
Proof.
  induction d as [|[k0 v0] d IH]; cbn [dict_set List.map fst]; intros Hd.
  - constructor; [intros [] | constructor].
  - inversion Hd as [|? ? Hk0 Hd']; subst. case_bool_decide.
    + subst k0. constructor; assumption.
    + cbn [List.map fst]. constructor; [|apply IH, Hd'].
      intros Hin. apply dict_set_keys in Hin as [->|Hin]; [congruence|].
      contradiction.
Qed.

Section PathResolver.

Variable module : Type.
Variable import_module : Py.str -> res module.
Variable getsourcefile : module -> res (option Py.str).
Variable dirname : Py.str -> Py.str.
Variable normpath : Py.str -> Py.str.
Variable glob : Py.str -> list Py.str.

Local Abbreviation substitute :=
  (Re.sub BRACKETED_MODULE_NAME_REGEX
     (module_directory module import_module getsourcefile dirname)).
Local Abbreviation entry :=
  (expand_entry module import_module getsourcefile dirname normpath glob).
Local Abbreviation expand :=
  (expand_aux_file_names module import_module getsourcefile dirname normpath
     glob).

(** What [expand_entry] does once the module names are substituted. *)
Lemma expand_entry_glob (bibentry pattern p : Py.str)
    (new : dict Py.str Py.str) (log : list logrec) :
  substitute pattern = Ok p ->
  entry (bibentry, pattern) new log
  = match glob (normpath p) with
    | [] => (Ok new, log ++ [(ERROR, NoAuxFilesMatching (normpath p) bibentry)])
    | [first] => (Ok (dict_set bibentry first new), log)
    | first :: _ :: _ =>
        (Ok (dict_set bibentry first new),
         log ++ [(ERROR, MultipleAuxFilesMatching (normpath p) bibentry first)])
    end.
Proof.
  intros Hsub. unfold expand_entry. rewrite Hsub.
  destruct (glob (normpath p)) as [|first [|second others]]; reflexivity.
Qed.

(** An entry of the new mapping comes from an iteration that found at
    least one file and kept the first. *)
Lemma expand_entry_kept (bibentry pattern : Py.str)
    (new new' : dict Py.str Py.str) (log log' : list logrec) :
  entry (bibentry, pattern) new log = (Ok new', log') ->
  new' = new
  \/ exists p first others,
       substitute pattern = Ok p
       /\ glob (normpath p) = first :: others
       /\ new' = dict_set bibentry first new.
Proof.
  destruct (substitute pattern) as [p|e] eqn:Hsub.
  - rewrite (expand_entry_glob _ _ _ _ _ Hsub).
    destruct (glob (normpath p)) as [|first [|second others]] eqn:Hglob;
      intros [= <- _]; [left; reflexivity| |];
      right; eexists p, first, _; eauto.
  - unfold expand_entry. rewrite Hsub.
    destruct e; try discriminate. intros [= <- _]. left. reflexivity.
Qed.

(** C6, amended: for an entry whose module names were substituted, with
    [p] the normalised pattern: no match drops the entry and logs exactly
    one error; exactly one match binds the entry to that file and logs
    nothing; several matches bind it to the first and log exactly one
    message, at error level. Every entry of the resulting mapping has one
    path, the first match of the pattern of an entry of the configured
    mapping. *)
Theorem C6_glob_zero_one_many :
  (forall (bibentry pattern p : Py.str) (new : dict Py.str Py.str)
          (log : list logrec),
      substitute pattern = Ok p ->
      entry (bibentry, pattern) new log
      = match glob (normpath p) with
        | [] =>
            (Ok new, log ++ [(ERROR, NoAuxFilesMatching (normpath p) bibentry)])
        | [first] => (Ok (dict_set bibentry first new), log)
        | first :: _ :: _ =>
            (Ok (dict_set bibentry first new),
             log ++ [(ERROR,
                      MultipleAuxFilesMatching (normpath p) bibentry first)])
        end)
  /\ (forall (cfg cfg' : Config) (log log' : list logrec),
        expand cfg log = (Ok cfg', log') ->
        List.NoDup (List.map fst (intertex_mapping cfg'))
        /\ forall bibentry filename,
             In (bibentry, filename) (intertex_mapping cfg') ->
             exists pattern p,
               In (bibentry, pattern) (intertex_mapping cfg)
               /\ substitute pattern = Ok p
               /\ head (glob (normpath p)) = Some filename).
Proof.
  split; [apply expand_entry_glob|].
  intros cfg cfg' log log'. unfold expand_aux_file_names, bind.
  destruct (for_each _ (intertex_mapping cfg) [] log) as [[new|e] l] eqn:Hloop;
    [|discriminate].
  intros [= <- _]. cbn [intertex_mapping].
  revert Hloop.
  apply (for_each_invariant
    (fun new => List.NoDup (List.map fst new)
       /\ forall bibentry filename,
            In (bibentry, filename) new ->
            exists pattern p,
              In (bibentry, pattern) (intertex_mapping cfg)
              /\ substitute pattern = Ok p
              /\ head (glob (normpath p)) = Some filename)).
  - intros [bibentry pattern] t t' k k' Hin [Hnodup Hfrom] Hstep.
    apply expand_entry_kept in Hstep
      as [->|(p & first & others & Hsub & Hglob & ->)]; [split; assumption|].
    split; [apply dict_set_NoDup, Hnodup|].
    intros b f Hbf. apply dict_set_In in Hbf as [[-> ->]|Hold].
    + exists pattern, p. rewrite Hglob. auto.
    + apply Hfrom, Hold.
  - split; [constructor | intros b f []].
Qed.

(** C10: a pattern whose first module token names a module that cannot
    be imported is dropped with one logged error; when the module is
    imported but [inspect.getsourcefile] gives [None] for it,
    [expand_aux_file_names] raises [TypeError], which nothing catches. *)
Theorem C10_module_without_source_aborts
    (cfg : Config) (bibentry lit name rest : Py.str)
    (items : dict Py.str Py.str) (log : list logrec) :
  intertex_mapping cfg
  = (bibentry, lit ++ py "{" ++ name ++ py "}" ++ rest) :: items ->
  ~ In 123 lit -> name <> [] -> forallb is_module_name_char name = true ->
  (forall missing msg new,
      import_module name = Raise (ImportError missing msg) ->
      entry (bibentry, lit ++ py "{" ++ name ++ py "}" ++ rest) new log
      = (Ok new, log ++ [(ERROR, CouldntImportModule missing msg bibentry)]))
  /\ (forall m,
        import_module name = Ok m -> getsourcefile m = Ok None ->
        expand cfg log = (Raise TypeError, log)).
Proof.
  intros Hcfg Hlit Hname Hchars.
  assert (Hsub : forall e,
    module_directory module import_module getsourcefile dirname name = Raise e ->
    substitute (lit ++ py "{" ++ name ++ py "}" ++ rest) = Raise e).
  { intros e He.
    change (py "{") with [123]. change (py "}") with [125].
    cbn [Datatypes.app].
    rewrite (sub_first_match _ BRACKETED_MODULE_NAME_REGEX_consuming
               _ lit 123 (name ++ 125 :: rest) name rest).
    - rewrite He. reflexivity.
    - intros x suffix Hx. apply module_token_needs_brace.
      intros ->. apply Hlit, list_elem_of_In, Hx.
    - apply module_token_matches; assumption. }
  split.
  - intros missing msg new Himport.
    unfold expand_entry.
    rewrite (Hsub (ImportError missing msg)); [reflexivity|].
    unfold module_directory. rewrite Himport. reflexivity.
  - intros m Himport Hsource.
    unfold expand_aux_file_names, bind. rewrite Hcfg.
    cbn [for_each]. unfold bind, expand_entry.
    rewrite (Hsub TypeError); [reflexivity|].
    unfold module_directory. rewrite Himport, Hsource. reflexivity.
Qed.

End PathResolver.

(** C6 as stated fails: when a pattern matches two files the message is
    logged at error level, and no warning is logged. *)
Lemma C6_counterexample :
  Host.glob (Host.normpath (py "/docs/build/*.aux"))
  = [py "/docs/build/a.aux"; py "/docs/build/b.aux"]
  /\ expand_aux_file_names nat Host.import_module Host.getsourcefile
       Host.dirname Host.normpath Host.glob
       (Host.config_with_mapping [(py "manual", py "/docs/build/*.aux")]) []
     = (Ok (Host.config_with_mapping [(py "manual", py "/docs/build/a.aux")]),
        [(ERROR, MultipleAuxFilesMatching (py "/docs/build/*.aux") (py "manual")
                   (py "/docs/build/a.aux"))])
  /\ ~ (exists m,
          In (WARNING, m)
            (snd (expand_aux_file_names nat Host.import_module
                    Host.getsourcefile Host.dirname Host.normpath Host.glob
                    (Host.config_with_mapping
                       [(py "manual", py "/docs/build/*.aux")]) []))).
Proof.
  split; [vm_compute; reflexivity|]. split; [vm_compute; reflexivity|].
  intros [m Hin]. vm_compute in Hin. destruct Hin as [Hin|[]]. discriminate.
Qed.

(** C6, amended, at a pattern that matches two files. *)
Lemma C6_witness :
  expand_entry nat Host.import_module Host.getsourcefile Host.dirname
    Host.normpath Host.glob (py "manual", py "/docs/build/*.aux") [] []
  = (Ok [(py "manual", py "/docs/build/a.aux")],
     [(ERROR, MultipleAuxFilesMatching (py "/docs/build/*.aux") (py "manual")
                (py "/docs/build/a.aux"))]).
Proof.
  pose proof (proj1 (C6_glob_zero_one_many nat Host.import_module
                       Host.getsourcefile Host.dirname Host.normpath Host.glob)
                (py "manual") (py "/docs/build/*.aux") (py "/docs/build/*.aux")
                [] []) as H.
  rewrite H; [vm_compute; reflexivity|]. vm_compute. reflexivity.
Defined.

(** C10 at a pattern naming a C extension module. *)
Lemma C10_witness :
  expand_aux_file_names nat Host.import_module Host.getsourcefile
    Host.dirname Host.normpath Host.glob
    (Host.config_with_mapping [(py "sockets", py "{_socket}doc.aux")]) []
  = (Raise TypeError, []).
Proof.
  apply (proj2 (C10_module_without_source_aborts nat Host.import_module
                  Host.getsourcefile Host.dirname Host.normpath Host.glob
                  (Host.config_with_mapping [(py "sockets", py "{_socket}doc.aux")])
                  (py "sockets") [] (py "_socket") (py "doc.aux") [] []
                  eq_refl (fun H : In 123 [] => H)
                  ltac:(discriminate) eq_refl) 1%nat eq_refl eq_refl).
Defined.

Example expand_module_and_glob :
  expand_aux_file_names nat Host.import_module Host.getsourcefile
    Host.dirname Host.normpath Host.glob
    (Host.config_with_mapping
       [(py "intertex", py "{sphinxcontrib.intertex}doc.aux");
        (py "gone", py "{no.such.module}/doc.aux");
        (py "empty", py "/nowhere/*.aux")]) []
  = (Ok (Host.config_with_mapping
           [(py "intertex", py "/site/sphinxcontrib/intertex/doc.aux")]),
     [(ERROR, CouldntImportModule (py "no.such.module") (py "No module named")
                (py "gone"));
      (ERROR, NoAuxFilesMatching (py "/nowhere/*.aux") (py "empty"))]).
Proof. vm_compute. reflexivity. Qed.

Example read_manual :
  let r := read_mapping Host.file_lines
             (Host.app_with_mapping [(py "manual", py "/docs/manual.aux")]) [] in
  snd r = [(WARNING, DefinedMultipleTimes (py "intro"))]
  /\ (intertex_refs (builder_env (match fst r with Ok a => a | Raise _ => Host.app_with_mapping [] end)))
     !! py "intro" = Some (py "manual", py "6", py "12")
  /\ last_write (py "intro") (mapping_writes Host.file_lines [(py "manual", py "/docs/manual.aux")]) = Some (py "manual", py "6", py "12").
Proof. vm_compute. auto. Qed.

(** ** Building the reference index *)

(** A loop whose iterations each extend a trace keeps an invariant
    indexed by the trace. *)
Lemma for_each_trace {A S W} (J : list W -> S -> list logrec -> Prop)
    (w : A -> list W) (body : A -> S -> M S) (xs : list A) :
  (forall x ws s l s' l',
      In x xs -> J ws s l -> body x s l = (Ok s', l') -> J (ws ++ w x) s' l') ->
  forall ws s l s' l',
    J ws s l -> for_each body xs s l = (Ok s', l') ->
    J (ws ++ flat_map w xs) s' l'.
Proof.
  induction xs as [|x xs IH]; intros Hbody ws s l s' l' HJ.
  - intros [= <- <-]. cbn [flat_map]. rewrite app_nil_r. exact HJ.
  - cbn [for_each flat_map]. unfold bind.
    destruct (body x s l) as [[t|e] k] eqn:Hx; [|discriminate].
    intros Hrest. rewrite app_assoc. eapply IH; [| |exact Hrest].
    + intros y. intros. eapply Hbody; eauto. right. assumption.
    + eapply Hbody; eauto. left. reflexivity.
Qed.

(** A loop whose iterations all return, returns. *)
Lemma for_each_returns {A S} (body : A -> S -> M S) (xs : list A) :
  (forall x s l, In x xs -> exists s' l', body x s l = (Ok s', l')) ->
  forall s l, exists s' l', for_each body xs s l = (Ok s', l').
Proof.
  induction xs as [|x xs IH]; intros Hbody s l.
  - eexists _, _. reflexivity.
  - cbn [for_each]. unfold bind.
    destruct (Hbody x s l) as (t & k & ->); [left; reflexivity|].
    apply IH. intros y u j Hy. apply Hbody. right. exact Hy.
Qed.

Lemma writes_to_app (key : Py.str) (ws ws' : list (Py.str * location)) :
  writes_to key (ws ++ ws') = writes_to key ws ++ writes_to key ws'.
Proof. apply List.filter_app. Qed.

Lemma duplicate_warnings_app (key : Py.str) (l l' : list logrec) :
  duplicate_warnings key (l ++ l')
  = (duplicate_warnings key l + duplicate_warnings key l')%nat.
Proof.
  unfold duplicate_warnings. rewrite List.filter_app. apply length_app.
Qed.

Lemma last_write_snoc (key target : Py.str) (loc : location)
    (ws : list (Py.str * location)) :
  last_write key (ws ++ [(target, loc)])
  = if bool_decide (target = key) then Some loc else last_write key ws.
Proof.
  unfold last_write. rewrite writes_to_app. cbn [writes_to List.filter fst].
  case_bool_decide.
  - rewrite List.map_app. cbn [List.map snd]. apply last_snoc.
  - rewrite app_nil_r. reflexivity.
Qed.

Lemma last_write_is_Some (key : Py.str) (ws : list (Py.str * location)) :
  is_Some (last_write key ws) <-> (1 <= length (writes_to key ws))%nat.
Proof.
  unfold last_write. rewrite last_is_Some.
  destruct (writes_to key ws); cbn; split; intros H; (congruence || lia).
Qed.

(** One write keeps the invariant. *)
Lemma define_target_invariant (log0 : list logrec)
    (bibentry section page target : Py.str) (ws : list (Py.str * location))
    (st st' : reading) (l l' : list logrec) :
  index_invariant log0 ws st l ->
  define_target bibentry section page target st l = (Ok st', l') ->
  index_invariant log0 (ws ++ [(target, (bibentry, section, page))]) st' l'.
Proof.
  intros (extra & -> & Hextra & Hrefs & Hwarned & Hcount).
  pose proof (last_write_is_Some target ws) as Hsome.
  rewrite <- Hrefs in Hsome. pose proof (Hwarned target) as Hw.
  assert (Hlen : forall key,
    length (writes_to key (ws ++ [(target, (bibentry, section, page))]))
    = (length (writes_to key ws) + (if bool_decide (target = key) then 1 else 0))%nat).
  { intros key. rewrite writes_to_app, length_app.
    cbn [writes_to List.filter fst]. case_bool_decide; reflexivity. }
  unfold define_target, bind, logger_warning, ret.
  destruct (bool_decide (is_Some (r_refs st !! target))
            && negb (bool_decide (target ∈ r_warned st))) eqn:Hdup.
  - apply andb_prop in Hdup as [Hin Hnot].
    apply bool_decide_eq_true_1, Hsome in Hin.
    apply negb_true_iff, bool_decide_eq_false_1 in Hnot. rewrite Hw in Hnot.
    intros [= <- <-].
    exists (extra ++ [(WARNING, DefinedMultipleTimes target)]).
    split; [symmetry; apply app_assoc|]. split; [|split; [|split]].
    + intros r Hr. apply in_app_or in Hr as [Hr|[<-|[]]]; [auto | eauto].
    + intros key. cbn [r_refs]. rewrite last_write_snoc.
      case_bool_decide as Hk.
      * subst key. apply lookup_insert_eq.
      * rewrite lookup_insert_ne by exact Hk. apply Hrefs.
    + intros key. cbn [r_warned]. rewrite Hlen, elem_of_union,
        elem_of_singleton, Hwarned.
      destruct (decide (target = key)) as [<-|Hk].
      * rewrite bool_decide_eq_true_2 by reflexivity.
        split; [lia | intros _; left; reflexivity].
      * rewrite bool_decide_eq_false_2 by exact Hk.
        split; [intros [->|H]; [contradiction | lia] | intros H; right; lia].
    + intros key. rewrite duplicate_warnings_app, Hcount, Hlen.
      unfold duplicate_warnings at 1. cbn [List.filter is_duplicate_warning].
      destruct (decide (target = key)) as [<-|Hk].
      * rewrite !(bool_decide_eq_true_2 (target = target)) by reflexivity.
        repeat case_bool_decide; cbn [length]; lia.
      * rewrite !(bool_decide_eq_false_2 (target = key)) by exact Hk.
        repeat case_bool_decide; cbn [length]; lia.
  - assert (Hfresh : ~ (1 <= length (writes_to target ws))%nat
                     \/ (2 <= length (writes_to target ws))%nat).
    { apply andb_false_iff in Hdup as [Hdup|Hdup].
      - apply bool_decide_eq_false_1 in Hdup. left. rewrite <- Hsome. exact Hdup.
      - apply negb_false_iff, bool_decide_eq_true_1 in Hdup. right.
        apply Hw, Hdup. }
    clear Hdup. intros [= <- <-]. exists extra.
    split; [reflexivity|]. split; [exact Hextra|]. split; [|split].
    + intros key. cbn [r_refs]. rewrite last_write_snoc.
      case_bool_decide as Hk.
      * subst key. apply lookup_insert_eq.
      * rewrite lookup_insert_ne by exact Hk. apply Hrefs.
    + intros key. cbn [r_warned]. rewrite Hlen, Hwarned.
      destruct (decide (target = key)) as [<-|Hk].
      * rewrite bool_decide_eq_true_2 by reflexivity. lia.
      * rewrite bool_decide_eq_false_2 by exact Hk. lia.
    + intros key. rewrite Hcount, Hlen.
      destruct (decide (target = key)) as [<-|Hk].
      * rewrite (bool_decide_eq_true_2 (target = target)) by reflexivity.
        repeat case_bool_decide; lia.
      * rewrite (bool_decide_eq_false_2 (target = key)) by exact Hk.
        repeat case_bool_decide; lia.
Qed.

Lemma index_invariant_citation_refs (log0 : list logrec)
    (ws : list (Py.str * location)) (st : reading) (l : list logrec)
    (cited : gmap Py.str (gset Py.str)) :
  index_invariant log0 ws st l ->
  index_invariant log0 ws
    {| r_refs := r_refs st; r_citation_refs := cited; r_warned := r_warned st |} l.
Proof. intros H. exact H. Qed.

Lemma flat_map_one {A B} (f : A -> B) (l : list A) :
  flat_map (fun x => [f x]) l = List.map f l.
Proof. induction l as [|x l IH]; cbn; congruence. Qed.

(** One line keeps the invariant, extending the trace by its writes. *)
Lemma read_line_invariant (log0 : list logrec) (bibentry line : Py.str)
    (ws : list (Py.str * location)) (st st' : reading) (l l' : list logrec) :
  index_invariant log0 ws st l ->
  read_line bibentry line st l = (Ok st', l') ->
  index_invariant log0 (ws ++ line_writes bibentry line) st' l'.
Proof.
  intros HJ. unfold read_line, line_writes, label_record.
  destruct (AUX_ENTRY_REGEX_match line) as [arguments|].
  - destruct (Re.findall BRACKETED_VALUE_REGEX arguments)
      as [|label [|section [|page others]]]; try discriminate.
    unfold getitem, bind, ret. cbn [lookup list_lookup].
    intros Hloop.
    rewrite <- (flat_map_one
                  (fun target => (target, (bibentry, section, page)))).
    revert Hloop. apply for_each_trace; [|exact HJ].
    intros target ws0 s k s' k' _. apply define_target_invariant.
  - intros [= <- <-]. rewrite app_nil_r. exact HJ.
Qed.

Section Index.

Variable file_lines : Py.str -> option (list Py.str).

Lemma read_aux_file_invariant (log0 : list logrec) (item : Py.str * Py.str)
    (ws : list (Py.str * location)) (st st' : reading) (l l' : list logrec) :
  index_invariant log0 ws st l ->
  read_aux_file file_lines item st l = (Ok st', l') ->
  index_invariant log0 (ws ++ mapping_writes file_lines [item]) st' l'.
Proof.
  intros HJ. destruct item as [bibentry aux_filename].
  unfold read_aux_file, mapping_writes. cbn [flat_map]. rewrite app_nil_r.
  destruct (file_lines aux_filename) as [lines|]; [|discriminate].
  cbn [default]. apply for_each_trace.
  - intros line ws0 s k s' k' _. apply read_line_invariant.
  - apply index_invariant_citation_refs, HJ.
Qed.

Lemma mapping_writes_items (items : dict Py.str Py.str) :
  mapping_writes file_lines items
  = flat_map (fun item => mapping_writes file_lines [item]) items.
Proof.
  unfold mapping_writes. induction items as [|[b f] items IH]; [reflexivity|].
  cbn [flat_map]. rewrite app_nil_r, IH. reflexivity.
Qed.

(** The index and the log after a run of [read_mapping] that returns. *)
Lemma read_mapping_invariant (app app' : App) (log log' : list logrec) :
  read_mapping file_lines app log = (Ok app', log') ->
  exists st,
    intertex_refs (builder_env app') = r_refs st
    /\ index_invariant log
         (mapping_writes file_lines (intertex_mapping (config app))) st log'.
Proof.
  unfold read_mapping, bind, ret.
  destruct (for_each _ _ _ log) as [[st|e] l] eqn:Hloop; [|discriminate].
  intros [= <- <-]. exists st. split; [reflexivity|].
  rewrite mapping_writes_items. change (flat_map _ _) with ([] ++ flat_map
    (fun item => mapping_writes file_lines [item]) (intertex_mapping (config app))).
  revert Hloop. apply for_each_trace.
  - intros item ws0 s k s' k' _. apply read_aux_file_invariant.
  - exists []. split; [symmetry; apply app_nil_r|].
    split; [intros r []|]. split; [|split].
    + intros key. apply lookup_empty.
    + intros key. cbn. split; [intros H; exfalso; set_solver | lia].
    + intros key. reflexivity.
Qed.

(** C5: in a run of [read_mapping] that returns, a key written two or
    more times maps to the location written last, and exactly one
    duplicate-label warning is logged for it. *)
Theorem C5_last_write_wins_one_warning
    (app app' : App) (log log' : list logrec) (key : Py.str) :
  read_mapping file_lines app log = (Ok app', log') ->
  (2 <= length (writes_to key
                  (mapping_writes file_lines (intertex_mapping (config app)))))%nat ->
  is_Some (intertex_refs (builder_env app') !! key)
  /\ intertex_refs (builder_env app') !! key
     = last_write key
         (mapping_writes file_lines (intertex_mapping (config app)))
  /\ duplicate_warnings key log' = S (duplicate_warnings key log).
Proof.
  intros Hrun Htwice.
  destruct (read_mapping_invariant _ _ _ _ Hrun)
    as (st & -> & extra & -> & _ & Hrefs & _ & Hcount).
  rewrite Hrefs. split; [apply last_write_is_Some; lia|].
  split; [reflexivity|].
  rewrite duplicate_warnings_app, Hcount.
  rewrite bool_decide_eq_true_2 by exact Htwice. lia.
Qed.

End Index.

(** C5 at a file that defines the label "intro" three times. *)
Lemma C5_witness :
  let r := read_mapping Host.file_lines
             (Host.app_with_mapping [(py "manual", py "/docs/manual.aux")]) [] in
  let app' := match fst r with
              | Ok a => a
              | Raise _ => Host.app_with_mapping []
              end in
  is_Some (intertex_refs (builder_env app') !! py "intro")
  /\ intertex_refs (builder_env app') !! py "intro"
     = last_write (py "intro")
         (mapping_writes Host.file_lines [(py "manual", py "/docs/manual.aux")])
  /\ duplicate_warnings (py "intro") (snd r) = 1%nat.
Proof.
  intros r app'.
  apply (C5_last_write_wins_one_warning Host.file_lines
           (Host.app_with_mapping [(py "manual", py "/docs/manual.aux")])
           app' [] (snd r) (py "intro")).
  - vm_compute. reflexivity.
  - vm_compute. lia.
Defined.

(** ** Lines that do not define a label *)

Lemma read_line_skips (bibentry line : Py.str) (st : reading)
    (log : list logrec) :
  AUX_ENTRY_REGEX_match line = None ->
  read_line bibentry line st log = (Ok st, log).
Proof. intros Hno. unfold read_line. rewrite Hno. reflexivity. Qed.

Lemma read_line_too_few_groups (bibentry line arguments : Py.str)
    (st : reading) (log : list logrec) :
  AUX_ENTRY_REGEX_match line = Some arguments ->
  (length (Re.findall BRACKETED_VALUE_REGEX arguments) < 3)%nat ->
  read_line bibentry line st log = (Raise IndexError, log).
Proof.
  intros Hmatch Hshort. unfold read_line. rewrite Hmatch.
  destruct (Re.findall BRACKETED_VALUE_REGEX arguments)
    as [|label [|section [|page others]]]; try reflexivity.
  cbn [length] in Hshort. lia.
Qed.

(** C3, at the failing input: the one-line file whose line invokes the
    macro with two brace groups. The line matches, [findall] yields two
    groups, and [read_mapping] raises [IndexError] instead of skipping the
    line. *)
Theorem C3_short_label_line_raises :
  AUX_ENTRY_REGEX_match (Host.line (py "\newlabel{intro}{{1}}"))
  = Some (py "{intro}{{1}}")
  /\ Re.findall BRACKETED_VALUE_REGEX (py "{intro}{{1}}") = [py "intro"; py "1"]
  /\ Host.file_lines (py "/docs/broken.aux")
     = Some [Host.line (py "\newlabel{intro}{{1}}")]
  /\ read_mapping Host.file_lines
       (Host.app_with_mapping [(py "broken", py "/docs/broken.aux")]) []
     = (Raise IndexError, []).
Proof. vm_compute. auto. Qed.

(** ** The keys of a well-formed file *)

Lemma define_target_returns (bibentry section page target : Py.str)
    (st : reading) (log : list logrec) :
  exists st' log',
    define_target bibentry section page target st log = (Ok st', log').
Proof.
  unfold define_target, bind, logger_warning, ret.
  destruct (_ && _); eexists _, _; reflexivity.
Qed.

Lemma read_line_returns (bibentry line : Py.str) (st : reading)
    (log : list logrec) :
  well_formed_line line ->
  exists st' log', read_line bibentry line st log = (Ok st', log').
Proof.
  intros [Hno|[record Hrecord]].
  - rewrite (read_line_skips _ _ _ _ Hno). eexists _, _. reflexivity.
  - unfold label_record in Hrecord. unfold read_line.
    destruct (AUX_ENTRY_REGEX_match line) as [arguments|]; [|discriminate].
    destruct (Re.findall BRACKETED_VALUE_REGEX arguments)
      as [|label [|section [|page others]]]; try discriminate.
    unfold getitem, bind, ret. cbn [lookup list_lookup].
    apply for_each_returns. intros target s l _. apply define_target_returns.
Qed.

Lemma line_writes_keys (bibentry : Py.str) (lines : list Py.str) :
  List.map fst (flat_map (line_writes bibentry) lines) = file_keys lines.
Proof.
  unfold file_keys, file_records.
  induction lines as [|line lines IH]; [reflexivity|].
  cbn [flat_map omap list_omap]. rewrite List.map_app, IH.
  unfold line_writes.
  destruct (label_record line) as [[[label section] page]|]; [|reflexivity].
  cbn [flat_map]. f_equal. rewrite List.map_map. cbn [fst].
  apply List.map_id.
Qed.

Lemma line_writes_In (bibentry : Py.str) (lines : list Py.str)
    (label section page target : Py.str) :
  In (label, section, page) (file_records lines) ->
  In target (sphinx_targets label) ->
  In (target, (bibentry, section, page)) (flat_map (line_writes bibentry) lines).
Proof.
  unfold file_records. intros Hrecord Htarget.
  apply list_elem_of_In, list_elem_of_omap in Hrecord as (line & Hline & Hrec).
  apply in_flat_map. exists line. split; [apply list_elem_of_In, Hline|].
  unfold line_writes. rewrite Hrec.
  apply (in_map (fun t => (t, (bibentry, section, page)))), Htarget.
Qed.

Lemma file_keys_length (lines : list Py.str) :
  length (file_keys lines)
  = (length (file_records lines)
     + length (List.filter has_colon (file_records lines)))%nat.
Proof.
  unfold file_keys. induction (file_records lines) as [|record records IH];
    [reflexivity|].
  cbn [flat_map List.filter length]. rewrite length_app, IH.
  unfold record_keys, sphinx_targets, has_colon.
  destruct (Py.contains 58 (fst (fst record))); cbn [length Datatypes.app]; lia.
Qed.

Lemma fmap_fst_map {A B} (l : list (A * B)) : l.*1 = List.map fst l.
Proof. induction l as [|x l IH]; cbn; congruence. Qed.

Lemma writes_to_fresh (key : Py.str) (ws : list (Py.str * location)) :
  ~ In key (List.map fst ws) -> writes_to key ws = [].
Proof.
  induction ws as [|[k loc] ws IH]; intros Hfresh; [reflexivity|].
  cbn [writes_to List.filter fst]. case_bool_decide as Hk.
  - exfalso. apply Hfresh. left. exact Hk.
  - apply IH. intros Hin. apply Hfresh. right. exact Hin.
Qed.

(** With distinct keys the last write to a key is its only write. *)
Lemma last_write_list_to_map (key : Py.str) (ws : list (Py.str * location)) :
  List.NoDup (List.map fst ws) ->
  last_write key ws = (list_to_map ws : gmap Py.str location) !! key.
Proof.
  induction ws as [|[k loc] ws IH]; intros Hnodup.
  - symmetry. apply lookup_empty.
  - inversion Hnodup as [|? ? Hfresh Hrest]; subst.
    cbn [list_to_map foldr uncurry]. unfold last_write in *.
    cbn [writes_to List.filter fst]. case_bool_decide as Hk.
    + subst key. rewrite lookup_insert_eq.
      fold (writes_to k ws). rewrite (writes_to_fresh _ _ Hfresh). reflexivity.
    + rewrite lookup_insert_ne by exact Hk. apply IH, Hrest.
Qed.

Lemma writes_to_once (key : Py.str) (ws : list (Py.str * location)) :
  List.NoDup (List.map fst ws) -> (length (writes_to key ws) <= 1)%nat.
Proof.
  induction ws as [|[k loc] ws IH]; intros Hnodup; [cbn; lia|].
  inversion Hnodup as [|? ? Hfresh Hrest]; subst.
  cbn [writes_to List.filter fst]. case_bool_decide as Hk; [|apply IH, Hrest].
  subst key. fold (writes_to k ws).
  rewrite (writes_to_fresh _ _ Hfresh). cbn. lia.
Qed.

Section WellFormedFile.

Variable file_lines : Py.str -> option (list Py.str).

(** C2, amended: for one auxiliary file whose lines are well formed and
    whose index keys (the labels, and what follows the first colon of
    those that have one) are pairwise distinct, [read_mapping] returns,
    logs nothing, and the index has one key per label plus one per label
    with a colon: as many keys as labels when no label has a colon, twice
    as many when every label has one. Every key of a line maps to the
    bibliography entry of the file with the second and third brace groups
    of the line. *)
Theorem C2_keys_of_well_formed_file
    (app : App) (bibentry aux_filename : Py.str) (lines : list Py.str)
    (log : list logrec) :
  intertex_mapping (config app) = [(bibentry, aux_filename)] ->
  file_lines aux_filename = Some lines ->
  Forall well_formed_line lines ->
  List.NoDup (file_keys lines) ->
  exists app',
    read_mapping file_lines app log = (Ok app', log)
    /\ size (intertex_refs (builder_env app'))
       = (length (file_records lines)
          + length (List.filter has_colon (file_records lines)))%nat
    /\ (forallb has_colon (file_records lines) = true ->
        size (intertex_refs (builder_env app'))
        = (2 * length (file_records lines))%nat)
    /\ (forallb (fun r => negb (has_colon r)) (file_records lines) = true ->
        size (intertex_refs (builder_env app')) = length (file_records lines))
    /\ (forall label section page target,
          In (label, section, page) (file_records lines) ->
          In target (sphinx_targets label) ->
          intertex_refs (builder_env app') !! target
          = Some (bibentry, section, page)).
Proof.
  intros Hmapping Hfile Hlines Hkeys.
  assert (Hruns : exists app' log',
    read_mapping file_lines app log = (Ok app', log')).
  { unfold read_mapping, bind, ret. rewrite Hmapping.
    cbn [for_each]. unfold bind, read_aux_file. rewrite Hfile.
    edestruct (for_each_returns (read_line bibentry) lines) as (st & l & ->).
    - intros line s k Hin. apply read_line_returns.
      rewrite Forall_forall in Hlines. apply Hlines, list_elem_of_In, Hin.
    - eexists _, _. reflexivity. }
  destruct Hruns as (app' & log' & Hrun).
  destruct (read_mapping_invariant _ _ _ _ _ Hrun)
    as (st & Hst & extra & -> & Hextra & Hrefs & _ & Hcount).
  rewrite Hmapping in Hrefs, Hcount.
  set (ws := flat_map (line_writes bibentry) lines).
  assert (Hws : mapping_writes file_lines [(bibentry, aux_filename)] = ws).
  { unfold mapping_writes. cbn [flat_map]. rewrite Hfile. apply app_nil_r. }
  rewrite Hws in Hrefs, Hcount.
  assert (Hnodup : List.NoDup (List.map fst ws)).
  { subst ws. rewrite line_writes_keys. exact Hkeys. }
  assert (Hsilent : extra = []).
  { destruct extra as [|r extra]; [reflexivity|]. exfalso.
    destruct (Hextra r) as [key ->]; [left; reflexivity|].
    specialize (Hcount key). pose proof (writes_to_once key ws Hnodup).
    rewrite bool_decide_eq_false_2 in Hcount by lia.
    unfold duplicate_warnings in Hcount.
    cbn [List.filter is_duplicate_warning] in Hcount.
    rewrite bool_decide_eq_true_2 in Hcount by reflexivity. discriminate. }
  assert (Hindex : intertex_refs (builder_env app') = list_to_map ws).
  { rewrite Hst. apply map_eq. intros key.
    rewrite Hrefs. apply last_write_list_to_map, Hnodup. }
  assert (Hsize : size (intertex_refs (builder_env app'))
    = (length (file_records lines)
       + length (List.filter has_colon (file_records lines)))%nat).
  { rewrite Hindex, map_size_list_to_map
      by (rewrite fmap_fst_map; apply NoDup_ListNoDup, Hnodup).
    rewrite <- file_keys_length, <- (line_writes_keys bibentry).
    symmetry. apply length_map. }
  exists app'. subst extra. rewrite app_nil_r in Hrun.
  split; [exact Hrun|]. split; [exact Hsize|]. split; [|split].
  - intros Hall. rewrite Hsize. clear -Hall.
    induction (file_records lines) as [|r rs IH]; [reflexivity|].
    cbn [forallb] in Hall. apply andb_prop in Hall as [Hr Hrs].
    cbn [List.filter length]. rewrite Hr. cbn [length].
    specialize (IH Hrs). lia.
  - intros Hnone. rewrite Hsize. clear -Hnone.
    induction (file_records lines) as [|r rs IH]; [reflexivity|].
    cbn [forallb] in Hnone. apply andb_prop in Hnone as [Hr Hrs].
    apply negb_true_iff in Hr.
    cbn [List.filter length]. rewrite Hr. specialize (IH Hrs). lia.
  - intros label section page target Hrecord Htarget. rewrite Hindex.
    apply elem_of_list_to_map_1;
      [rewrite fmap_fst_map; apply NoDup_ListNoDup, Hnodup|].
    apply list_elem_of_In, (line_writes_In _ _ label); assumption.
Qed.

End WellFormedFile.

(** C2 as stated fails. Two well-formed lines with the distinct labels
    "a:x" and "b:x", each with a colon, give three keys and not four, and
    "x" maps to the location of the second line only; the labels "a:x"
    and "y" give three keys, neither two nor four. *)
Lemma C2_counterexample :
  let index_of (aux_filename : Py.str) :=
    match fst (read_mapping Host.file_lines
                 (Host.app_with_mapping [(py "doc", aux_filename)]) []) with
    | Ok app' => intertex_refs (builder_env app')
    | Raise _ => ∅
    end in
  option_map file_records (Host.file_lines (py "/docs/clash.aux"))
  = Some [(py "a:x", py "1", py "1"); (py "b:x", py "2", py "7")]
  /\ size (index_of (py "/docs/clash.aux")) = 3%nat
  /\ index_of (py "/docs/clash.aux") !! py "x" = Some (py "doc", py "2", py "7")
  /\ option_map file_records (Host.file_lines (py "/docs/mixed.aux"))
     = Some [(py "a:x", py "1", py "1"); (py "y", py "2", py "7")]
  /\ size (index_of (py "/docs/mixed.aux")) = 3%nat.
Proof. vm_compute. auto 6. Qed.

(** C2, amended, at a file with two labels, each with a colon, and a
    line that defines no label. *)
Lemma C2_witness :
  exists app',
    read_mapping Host.file_lines
      (Host.app_with_mapping [(py "guide", py "/docs/guide.aux")]) []
    = (Ok app', [])
    /\ size (intertex_refs (builder_env app')) = 4%nat
    /\ intertex_refs (builder_env app') !! py "setup"
       = Some (py "guide", py "2", py "4").
Proof.
  destruct (C2_keys_of_well_formed_file Host.file_lines
              (Host.app_with_mapping [(py "guide", py "/docs/guide.aux")])
              (py "guide") (py "/docs/guide.aux")
              [Host.line (py "\newlabel{guide:intro}{{1}{2}}");
               Host.line (py "\@writefile{toc}{\contentsline {section}{1}{2}}");
               Host.line (py "\newlabel{guide:setup}{{2}{4}}")] [])
    as (app' & Hrun & Hsize & _ & _ & Hkeys).
  - reflexivity.
  - vm_compute. reflexivity.
  - constructor; [right|constructor; [left|constructor; [right|constructor]]].
    + vm_compute. eexists. reflexivity.
    + vm_compute. reflexivity.
    + vm_compute. eexists. reflexivity.
  - apply NoDup_ListNoDup, (bool_decide_unpack _). vm_compute. exact I.
  - exists app'. split; [exact Hrun|]. split; [exact Hsize|].
    apply (Hkeys (py "guide:setup")); vm_compute; auto.
Defined.

(** * Further properties of the parts *)

(** ** The scanner loses nothing *)

Lemma span_forallb (f : N -> bool) (s : Py.str) :
  forallb f (fst (Py.span f s)) = true.
Proof.
  induction s as [|c t IH]; [reflexivity|]. cbn [Py.span].
  destruct (f c) eqn:Hc; [|reflexivity].
  destruct (Py.span f t) as [a b]. cbn [fst forallb] in *.
  rewrite Hc, IH. reflexivity.
Qed.

Lemma head_is_brace (c : N) :
  c = 123 \/ (forall (A : Type) (x y : A),
                 match c with 123 => x | _ => y end = y).
Proof.
  destruct (N.eq_dec c 123) as [->|Hc]; [left; reflexivity|]. right.
  intros A x y. destruct c as [|p]; [reflexivity|].
  do 7 (destruct p as [p|p|]; try reflexivity). congruence.
Qed.

Lemma head_is_closing_brace (c : N) :
  c = 125 \/ (forall (A : Type) (x y : A),
                 match c with 125 => x | _ => y end = y).
Proof.
  destruct (N.eq_dec c 125) as [->|Hc]; [left; reflexivity|]. right.
  intros A x y. destruct c as [|p]; [reflexivity|].
  do 7 (destruct p as [p|p|]; try reflexivity). congruence.
Qed.

(** A match of [BRACKETED_VALUE_REGEX] is a brace group without braces
    inside. *)
Lemma BRACKETED_VALUE_REGEX_match (s cap rest : Py.str) :
  BRACKETED_VALUE_REGEX s = Some (cap, rest) ->
  s = 123 :: cap ++ 125 :: rest /\ forallb is_not_brace cap = true.
Proof.
  unfold BRACKETED_VALUE_REGEX. destruct s as [|c t]; [discriminate|].
  destruct (head_is_brace c) as [->|Hc]; [|rewrite Hc; discriminate].
  pose proof (span_app is_not_brace t) as Happ.
  pose proof (span_forallb is_not_brace t) as Hall.
  destruct (Py.span is_not_brace t) as [value [|d after]]; [discriminate|].
  destruct (head_is_closing_brace d) as [->|Hd]; [|rewrite Hd; discriminate].
  intros [= <- <-]. cbn [fst snd] in *. rewrite Happ. split; [reflexivity|exact Hall].
Qed.

Lemma BRACKETED_MODULE_NAME_REGEX_match (s cap rest : Py.str) :
  BRACKETED_MODULE_NAME_REGEX s = Some (cap, rest) ->
  s = 123 :: cap ++ 125 :: rest
  /\ cap <> [] /\ forallb is_module_name_char cap = true.
Proof.
  unfold BRACKETED_MODULE_NAME_REGEX. destruct s as [|c t]; [discriminate|].
  destruct (head_is_brace c) as [->|Hc]; [|rewrite Hc; discriminate].
  pose proof (span_app is_module_name_char t) as Happ.
  pose proof (span_forallb is_module_name_char t) as Hall.
  destruct (Py.span is_module_name_char t) as [[|x name] [|d after]];
    try discriminate.
  destruct (head_is_closing_brace d) as [->|Hd]; [|rewrite Hd; discriminate].
  intros [= <- <-]. cbn [fst snd] in *. rewrite Happ.
  split; [reflexivity|]. split; [discriminate | exact Hall].
Qed.

Lemma BRACKETED_VALUE_REGEX_bracketing : bracketing BRACKETED_VALUE_REGEX.
Proof. intros s cap rest H. apply BRACKETED_VALUE_REGEX_match, H. Qed.

Lemma BRACKETED_MODULE_NAME_REGEX_bracketing :
  bracketing BRACKETED_MODULE_NAME_REGEX.
Proof. intros s cap rest H. apply BRACKETED_MODULE_NAME_REGEX_match, H. Qed.

Lemma bracketing_consuming (m : Re.matcher) : bracketing m -> consuming m.
Proof.
  intros Hm s cap rest Hs. rewrite (Hm _ _ _ Hs).
  cbn [length]. rewrite length_app. cbn [length]. lia.
Qed.

Lemma rejoin_pieces (lit cap : Py.str) (ms : list (Py.str * Py.str))
    (tl : Py.str) :
  rejoin (pieces ((lit, cap) :: ms) tl)
  = lit ++ [123] ++ cap ++ [125] ++ rejoin (pieces ms tl).
Proof. reflexivity. Qed.

Section ScannerRoundTrip.

Variable m : Re.matcher.
Hypothesis m_bracketing : bracketing m.

Lemma finditer_fuel_rejoin (fuel : nat) (s : Py.str) :
  (length s < fuel)%nat ->
  rejoin (pieces (fst (Re.finditer_fuel fuel m s))
                 (snd (Re.finditer_fuel fuel m s))) = s.
Proof.
  revert s. induction fuel as [|fuel IH]; intros s Hfuel; [lia|].
  destruct s as [|c t]; [reflexivity|].
  rewrite finditer_fuel_cons.
  destruct (m (c :: t)) as [[cap rest]|] eqn:Hm.
  - pose proof (m_bracketing _ _ _ Hm) as Hs.
    pose proof (bracketing_consuming m m_bracketing _ _ _ Hm) as Hlen.
    specialize (IH rest ltac:(cbn [length] in *; lia)).
    destruct (Re.finditer_fuel fuel m rest) as [ms tl]. cbn [fst snd] in *.
    rewrite rejoin_pieces, IH, Hs. reflexivity.
  - specialize (IH t ltac:(cbn [length] in *; lia)).
    destruct (Re.finditer_fuel fuel m t) as [[|[lit cap] ms] tl];
      cbn [fst snd] in *.
    + cbn in IH |- *. congruence.
    + rewrite rejoin_pieces in *. rewrite <- IH. reflexivity.
Qed.

Lemma split_rejoin (s : Py.str) : rejoin (Re.split m s) = s.
Proof.
  rewrite split_pieces. unfold Re.finditer. apply finditer_fuel_rejoin. lia.
Qed.

Lemma split_length (s : Py.str) :
  length (Re.split m s) = S (2 * length (Re.findall m s)).
Proof.
  rewrite split_pieces. unfold Re.findall.
  destruct (Re.finditer m s) as [ms tl]. cbn [fst snd]. unfold pieces.
  rewrite length_app, length_map. cbn [length].
  induction ms as [|[lit cap] ms IH]; [reflexivity|].
  cbn [flat_map length Datatypes.app] in *. lia.
Qed.

End ScannerRoundTrip.

(** X1: putting the braces back around every second piece of the split
    of a reference format gives the format back, and the split has one
    piece more than twice the number of brace groups: cutting the format
    drops nothing. *)
Theorem X1_split_rejoins_to_the_format (reference_format : Py.str) :
  rejoin (Re.split BRACKETED_VALUE_REGEX reference_format) = reference_format
  /\ length (Re.split BRACKETED_VALUE_REGEX reference_format)
     = S (2 * length (Re.findall BRACKETED_VALUE_REGEX reference_format)).
Proof.
  split.
  - apply split_rejoin, BRACKETED_VALUE_REGEX_bracketing.
  - apply split_length.
Qed.

(** ** The text of a formatted reference *)

Lemma concat_map_snoc {A} (f : A -> Py.str) (l : list A) (x : A) :
  concat (List.map f (l ++ [x])) = concat (List.map f l) ++ f x.
Proof.
  rewrite List.map_app, concat_app. cbn [List.map concat].
  rewrite app_nil_r. reflexivity.
Qed.

(** The text of the nodes the loop collects is the text of what it
    started with followed by the substituted format. *)
Lemma fill_format_text (subst : Py.str -> res node)
    (ms : list (Py.str * Py.str)) (tl : Py.str) (acc children : list node) :
  fill_format subst (pieces ms tl) acc = Ok children ->
  exists text,
    Re.sub_pieces
      (fun cap => match subst cap with
                  | Ok n => Ok (astext n)
                  | Raise e => Raise e
                  end) ms tl = Ok text
    /\ concat (List.map astext children)
       = concat (List.map astext acc) ++ text.
Proof.
  revert acc. induction ms as [|[lit cap] ms IH]; intros acc.
  - intros [= <-]. exists tl. split; [reflexivity|]. apply concat_map_snoc.
  - unfold pieces. cbn [flat_map Datatypes.app fill_format Re.sub_pieces].
    destruct (subst cap) as [n|e]; [|discriminate].
    intros Hfill. destruct (IH _ Hfill) as (text & -> & ->).
    eexists. split; [reflexivity|].
    rewrite !concat_map_snoc, <- !app_assoc. reflexivity.
Qed.

Section ReferenceText.

Variable make_refnode : Py.str -> Py.str -> Py.str -> node -> node.

(** X2: when [make_pdf_reference] returns a node, the text of the node
    is the reference format with every brace group replaced by the text
    of its substitute (the label node, the bibliography reference, the
    section or the page), and the log is that of [make_bib_reference]. *)
Theorem X2_reference_text_is_the_substituted_format
    (app : App) (bibentry section page : Py.str) (contnode : node)
    (refdoc : Py.str) (log log' : list logrec) (n : node) :
  make_pdf_reference make_refnode app bibentry section page contnode refdoc log
  = (Ok n, log') ->
  exists bibref,
    make_bib_reference make_refnode app bibentry refdoc log = (Ok bibref, log')
    /\ Re.sub BRACKETED_VALUE_REGEX
         (placeholder_text contnode bibref section page)
         (intertex_reference_format (config app))
       = Ok (astext n).
Proof.
  unfold make_pdf_reference, bind, lift, ret.
  destruct (make_bib_reference make_refnode app bibentry refdoc log)
    as [[bibref|e] l]; [|discriminate].
  rewrite split_pieces.
  destruct (fill_format _ _ []) as [children|e] eqn:Hfill; [|discriminate].
  intros [= <- <-]. exists bibref. split; [reflexivity|].
  destruct (fill_format_text _ _ _ _ _ Hfill) as (text & Hsub & Htext).
  unfold Re.sub. destruct (Re.finditer _ _) as [ms tl]. cbn [fst snd] in *.
  unfold placeholder_text. rewrite Hsub. cbn [astext]. rewrite Htext.
  reflexivity.
Qed.

End ReferenceText.

(** X2 at a format with two placeholders, for a known citation. *)
Lemma X2_witness :
  exists bibref,
    make_bib_reference Host.make_refnode
      (Host.app_with_format (py "see {label}, section {section}"))
      (py "manual") (py "usage") []
    = (Ok bibref, [])
    /\ Re.sub BRACKETED_VALUE_REGEX
         (placeholder_text (Text (py "Fig 1")) bibref (py "2") (py "5"))
         (py "see {label}, section {section}")
       = Ok (py "see Fig 1, section 2").
Proof.
  apply (X2_reference_text_is_the_substituted_format Host.make_refnode
           (Host.app_with_format (py "see {label}, section {section}"))
           (py "manual") (py "2") (py "5") (Text (py "Fig 1")) (py "usage") [] []
           (inline [Text (py "see "); Text (py "Fig 1"); Text (py ", section ");
                    Text (py "2"); Text (py "")])).
  vm_compute. reflexivity.
Defined.

(** ** What the scanner finds *)

Lemma finditer_fuel_captures (m : Re.matcher) (P : Py.str -> Prop) :
  (forall s cap rest, m s = Some (cap, rest) -> P cap) ->
  forall fuel s, Forall P (List.map snd (fst (Re.finditer_fuel fuel m s))).
Proof.
  intros Hm. induction fuel as [|fuel IH]; intros s; [constructor|].
  destruct s as [|c t]; [constructor|]. rewrite finditer_fuel_cons.
  destruct (m (c :: t)) as [[cap rest]|] eqn:Hc.
  - specialize (IH rest). destruct (Re.finditer_fuel fuel m rest) as [ms tl].
    cbn [fst snd List.map] in *. constructor; [eapply Hm, Hc | exact IH].
  - specialize (IH t).
    destruct (Re.finditer_fuel fuel m t) as [[|[lit cap] ms] tl];
      cbn [fst snd List.map] in *; exact IH.
Qed.

Lemma findall_captures (m : Re.matcher) (P : Py.str -> Prop) (s : Py.str) :
  (forall s cap rest, m s = Some (cap, rest) -> P cap) ->
  Forall P (Re.findall m s).
Proof. intros Hm. apply finditer_fuel_captures, Hm. Qed.

Lemma sub_pieces_ext (repl repl' : Py.str -> res Py.str)
    (ms : list (Py.str * Py.str)) (tl : Py.str) :
  Forall (fun cap => repl cap = repl' cap) (List.map snd ms) ->
  Re.sub_pieces repl ms tl = Re.sub_pieces repl' ms tl.
Proof.
  induction ms as [|[lit cap] ms IH]; intros Hall; [reflexivity|].
  cbn [List.map snd] in Hall. apply Forall_cons in Hall as [Hcap Hall].
  cbn [Re.sub_pieces]. rewrite Hcap, (IH Hall). reflexivity.
Qed.

Lemma findall_match (m : Re.matcher) (c : N) (t cap rest : Py.str) :
  consuming m -> m (c :: t) = Some (cap, rest) ->
  Re.findall m (c :: t) = cap :: Re.findall m rest.
Proof.
  intros Hm Hc. unfold Re.findall. rewrite (finditer_match m Hm _ _ _ _ Hc).
  reflexivity.
Qed.

Lemma findall_no_match (m : Re.matcher) (c : N) (t : Py.str) :
  consuming m -> m (c :: t) = None -> Re.findall m (c :: t) = Re.findall m t.
Proof.
  intros Hm Hc. unfold Re.findall. rewrite (finditer_no_match m Hm _ _ Hc).
  destruct (Re.finditer m t) as [[|[lit cap] ms] tl]; reflexivity.
Qed.

Lemma for_each_ext {A S} (body body' : A -> S -> M S) (xs : list A) (s : S)
    (log : list logrec) :
  (forall x t l, In x xs -> body x t l = body' x t l) ->
  for_each body xs s log = for_each body' xs s log.
Proof.
  revert s log. induction xs as [|x xs IH]; intros s log Hext; [reflexivity|].
  cbn [for_each]. unfold bind. rewrite Hext by (left; reflexivity).
  destruct (body' x s log) as [[t|e] l]; [|reflexivity].
  apply IH. intros y u k Hy. apply Hext. right. exact Hy.
Qed.

Section ModuleNames.

Variable module : Type.
Variable import_module import_module' : Py.str -> res module.
Variable getsourcefile : module -> res (option Py.str).
Variable dirname : Py.str -> Py.str.
Variable normpath : Py.str -> Py.str.
Variable glob : Py.str -> list Py.str.

(** X3: [expand_aux_file_names] imports nothing but names of one or
    more of the characters a-z, A-Z, 0-9, underscore and dot: two import
    functions that agree on those names give the same mapping, log and
    exception. *)
Theorem X3_only_module_names_are_imported (cfg : Config) (log : list logrec) :
  (forall name,
      name <> [] -> forallb is_module_name_char name = true ->
      import_module name = import_module' name) ->
  expand_aux_file_names module import_module getsourcefile dirname normpath
    glob cfg log
  = expand_aux_file_names module import_module' getsourcefile dirname normpath
      glob cfg log.
Proof.
  intros Hagree. unfold expand_aux_file_names, bind.
  rewrite (for_each_ext _
             (expand_entry module import_module' getsourcefile dirname
                normpath glob)); [reflexivity|].
  intros [bibentry pattern] new l _. unfold expand_entry.
  replace (Re.sub BRACKETED_MODULE_NAME_REGEX
             (module_directory module import_module getsourcefile dirname)
             pattern)
    with (Re.sub BRACKETED_MODULE_NAME_REGEX
            (module_directory module import_module' getsourcefile dirname)
            pattern); [reflexivity|].
  unfold Re.sub.
  pose proof (findall_captures BRACKETED_MODULE_NAME_REGEX
                (fun name => name <> [] /\ forallb is_module_name_char name = true)
                pattern) as Hnames.
  unfold Re.findall in Hnames.
  destruct (Re.finditer BRACKETED_MODULE_NAME_REGEX pattern) as [ms tl].
  apply sub_pieces_ext. cbn [fst] in Hnames.
  eapply Forall_impl; [apply Hnames|].
  - intros s cap rest Hs. apply BRACKETED_MODULE_NAME_REGEX_match in Hs. tauto.
  - intros name [Hne Hchars]. cbn beta. unfold module_directory.
    rewrite (Hagree name Hne Hchars). reflexivity.
Qed.

End ModuleNames.

(** X3 for an import function that rejects every other name. *)
Lemma X3_witness :
  expand_aux_file_names nat Host.import_module Host.getsourcefile
    Host.dirname Host.normpath Host.glob
    (Host.config_with_mapping
       [(py "intertex", py "{sphinxcontrib.intertex}doc.aux {not a module}")]) []
  = expand_aux_file_names nat
      (fun name =>
         match name with
         | [] => Raise TypeError
         | _ :: _ =>
             if forallb is_module_name_char name then Host.import_module name
             else Raise TypeError
         end)
      Host.getsourcefile Host.dirname Host.normpath Host.glob
      (Host.config_with_mapping
         [(py "intertex", py "{sphinxcontrib.intertex}doc.aux {not a module}")]) [].
Proof.
  apply X3_only_module_names_are_imported.
  intros name Hne Hchars. destruct name as [|c name]; [contradiction|].
  rewrite Hchars. reflexivity.
Defined.

(** ** The lines LaTeX writes *)

Lemma strip_prefix_app (p s : Py.str) : Py.strip_prefix p (p ++ s) = Some s.
Proof.
  induction p as [|a p IH]; cbn [Py.strip_prefix Datatypes.app].
  - destruct s; reflexivity.
  - rewrite N.eqb_refl. exact IH.
Qed.

Lemma contains_false (c : N) (s : Py.str) :
  Py.contains c s = false -> forallb (fun x => negb (x =? c)) s = true.
Proof.
  unfold Py.contains. induction s as [|x s IH]; [reflexivity|].
  cbn [existsb forallb]. intros H. apply orb_false_iff in H as [Hx Hs].
  rewrite N.eqb_sym, Hx, (IH Hs). reflexivity.
Qed.

Lemma value_group_matches (value rest : Py.str) :
  forallb is_not_brace value = true ->
  BRACKETED_VALUE_REGEX (123 :: value ++ 125 :: rest) = Some (value, rest).
Proof.
  intros Hvalue. unfold BRACKETED_VALUE_REGEX.
  rewrite span_all by (exact Hvalue || reflexivity). reflexivity.
Qed.

Lemma BRACKETED_VALUE_REGEX_consuming : consuming BRACKETED_VALUE_REGEX.
Proof. apply bracketing_consuming, BRACKETED_VALUE_REGEX_bracketing. Qed.

(** X4: a line as LaTeX writes it - the macro, the label in braces, then
    a group that starts with the section and the page in braces - gives
    the record of that label, section and page, whatever follows on the
    line. *)
Theorem X4_newlabel_line_gives_its_record (label section page more : Py.str) :
  forallb is_not_brace label = true ->
  forallb is_not_brace section = true ->
  forallb is_not_brace page = true ->
  Py.contains 10 (label ++ section ++ page ++ more) = false ->
  label_record
    (py "\newlabel{" ++ label ++ py "}{{" ++ section ++ py "}{" ++ page
     ++ py "}" ++ more ++ [10])
  = Some (label, section, page).
Proof.
  intros Hlabel Hsection Hpage Hline.
  apply contains_false in Hline.
  rewrite !forallb_app in Hline.
  apply andb_prop in Hline as [Hl Hline]. apply andb_prop in Hline as [Hs Hline].
  apply andb_prop in Hline as [Hp Hm].
  set (arguments := 123 :: label ++ 125 :: 123 :: 123 :: section
                      ++ 125 :: 123 :: page ++ 125 :: more).
  assert (Hshape : py "\newlabel{" ++ label ++ py "}{{" ++ section ++ py "}{"
                     ++ page ++ py "}" ++ more ++ [10]
                   = py "\newlabel" ++ arguments ++ [10]).
  { subst arguments. change (py "\newlabel{") with (py "\newlabel" ++ [123]).
    change (py "}{{") with [125; 123; 123]. change (py "}{") with [125; 123].
    change (py "}") with [125].
    repeat (rewrite <- ?app_assoc; cbn [Datatypes.app]). reflexivity. }
  rewrite Hshape. unfold label_record, AUX_ENTRY_REGEX_match.
  rewrite strip_prefix_app.
  rewrite (span_all _ arguments 10 []); [|subst arguments|reflexivity].
  - cbn [fst]. subst arguments.
    rewrite (findall_match _ _ _ _ _ BRACKETED_VALUE_REGEX_consuming
               (value_group_matches label _ Hlabel)).
    rewrite (findall_no_match _ _ _ BRACKETED_VALUE_REGEX_consuming)
      by reflexivity.
    rewrite (findall_match _ _ _ _ _ BRACKETED_VALUE_REGEX_consuming
               (value_group_matches section _ Hsection)).
    rewrite (findall_match _ _ _ _ _ BRACKETED_VALUE_REGEX_consuming
               (value_group_matches page _ Hpage)).
    reflexivity.
  - repeat first [rewrite forallb_app | progress cbn [forallb]].
    rewrite Hl, Hs, Hp, Hm. reflexivity.
Qed.

(** X4 at the line of a section label written with hyperref. *)
Lemma X4_witness :
  label_record
    (py "\newlabel{" ++ py "usage:install" ++ py "}{{" ++ py "2.1" ++ py "}{"
     ++ py "5" ++ py "}" ++ py "{Install}{section.2}{}}" ++ [10])
  = Some (py "usage:install", py "2.1", py "5").
Proof.
  apply X4_newlabel_line_gives_its_record; vm_compute; reflexivity.
Defined.

(** ** The index after a run *)

Lemma writes_to_written (key : Py.str) (ws : list (Py.str * location)) :
  In key (List.map fst ws) -> (1 <= length (writes_to key ws))%nat.
Proof.
  induction ws as [|[k loc] ws IH]; [intros []|].
  cbn [List.map fst writes_to List.filter]. intros [Hk|Hin].
  - rewrite bool_decide_eq_true_2 by exact Hk. cbn [length]. lia.
  - case_bool_decide; [cbn [length]; lia | apply IH, Hin].
Qed.

Lemma last_write_None (key : Py.str) (ws : list (Py.str * location)) :
  last_write key ws = None <-> ~ In key (List.map fst ws).
Proof.
  rewrite eq_None_not_Some, last_write_is_Some. split.
  - intros Hnone Hin. apply Hnone, writes_to_written, Hin.
  - intros Hfresh. rewrite (writes_to_fresh _ _ Hfresh). cbn [length]. lia.
Qed.

Lemma last_write_In (key : Py.str) (loc : location)
    (ws : list (Py.str * location)) :
  last_write key ws = Some loc -> In (key, loc) ws.
Proof.
  unfold last_write. intros Hlast.
  apply last_Some_elem_of, list_elem_of_In, in_map_iff in Hlast
    as ([k loc'] & Hloc & Hin).
  cbn [snd] in Hloc. subst loc'. unfold writes_to in Hin.
  apply filter_In in Hin as [Hin Hk]. apply bool_decide_eq_true_1 in Hk.
  cbn [fst] in Hk. subst k. exact Hin.
Qed.

Section IndexContents.

Variable file_lines : Py.str -> option (list Py.str).

(** X5: after a run of [read_mapping] that returns, the index holds
    exactly the keys written by the lines of the mapped files, each with
    the location written last; nothing of the index of an earlier run
    stays. *)
Theorem X5_index_holds_the_last_writes
    (app app' : App) (log log' : list logrec) (key : Py.str) :
  read_mapping file_lines app log = (Ok app', log') ->
  intertex_refs (builder_env app') !! key
  = last_write key (mapping_writes file_lines (intertex_mapping (config app)))
  /\ (intertex_refs (builder_env app') !! key = None
      <-> ~ In key (List.map fst
                      (mapping_writes file_lines
                         (intertex_mapping (config app))))).
Proof.
  intros Hrun.
  destruct (read_mapping_invariant _ _ _ _ _ Hrun)
    as (st & -> & extra & _ & _ & Hrefs & _).
  rewrite Hrefs. split; [reflexivity | apply last_write_None].
Qed.

(** X6: a run of [read_mapping] that returns adds nothing to the log
    but duplicate-label warnings, each for a key written at least twice;
    a key written at most once gets none. *)
Theorem X6_only_duplicates_are_warned_of
    (app app' : App) (log log' : list logrec) :
  read_mapping file_lines app log = (Ok app', log') ->
  exists extra,
    log' = log ++ extra
    /\ (forall r, In r extra ->
          exists key,
            r = (WARNING, DefinedMultipleTimes key)
            /\ (2 <= length (writes_to key
                               (mapping_writes file_lines
                                  (intertex_mapping (config app)))))%nat)
    /\ (forall key,
          (length (writes_to key
                     (mapping_writes file_lines
                        (intertex_mapping (config app)))) <= 1)%nat ->
          duplicate_warnings key log' = duplicate_warnings key log).
Proof.
  intros Hrun.
  destruct (read_mapping_invariant _ _ _ _ _ Hrun)
    as (st & _ & extra & -> & Hextra & _ & _ & Hcount).
  exists extra. split; [reflexivity|]. split.
  - intros r Hr. destruct (Hextra r Hr) as [key ->]. exists key.
    split; [reflexivity|]. specialize (Hcount key).
    case_bool_decide as Htwice; [exact Htwice|]. exfalso.
    unfold duplicate_warnings in Hcount.
    assert (Hin : In (WARNING, DefinedMultipleTimes key)
                    (List.filter (is_duplicate_warning key) extra)).
    { apply filter_In. split; [exact Hr|]. cbn.
      apply bool_decide_eq_true_2. reflexivity. }
    destruct (List.filter _ extra); [destruct Hin | discriminate].
  - intros key Honce. rewrite duplicate_warnings_app, Hcount.
    rewrite bool_decide_eq_false_2 by lia. lia.
Qed.

End IndexContents.

(** X5 at a key left in the index by an earlier run, for an empty
    mapping. *)
Lemma X5_witness :
  let r := read_mapping Host.file_lines
             (Host.app (py "latex") {[ py "stale" := (py "old", py "1", py "1") ]})
             [] in
  let app' := match fst r with
              | Ok a => a
              | Raise _ => Host.app_with_mapping []
              end in
  intertex_refs (builder_env app') !! py "stale"
  = last_write (py "stale") (mapping_writes Host.file_lines [])
  /\ (intertex_refs (builder_env app') !! py "stale" = None
      <-> ~ In (py "stale")
              (List.map fst (mapping_writes Host.file_lines []))).
Proof.
  intros r app'.
  apply (X5_index_holds_the_last_writes Host.file_lines
           (Host.app (py "latex") {[ py "stale" := (py "old", py "1", py "1") ]})
           app' [] (snd r) (py "stale")).
  vm_compute. reflexivity.
Defined.

(** X6 at a file in which "intro" is defined three times. *)
Lemma X6_witness :
  exists extra,
    snd (read_mapping Host.file_lines
           (Host.app_with_mapping [(py "manual", py "/docs/manual.aux")]) [])
    = [] ++ extra
    /\ (forall r, In r extra ->
          exists key,
            r = (WARNING, DefinedMultipleTimes key)
            /\ (2 <= length (writes_to key
                               (mapping_writes Host.file_lines
                                  [(py "manual", py "/docs/manual.aux")])))%nat)
    /\ (forall key,
          (length (writes_to key
                     (mapping_writes Host.file_lines
                        [(py "manual", py "/docs/manual.aux")])) <= 1)%nat ->
          duplicate_warnings key
            (snd (read_mapping Host.file_lines
                    (Host.app_with_mapping [(py "manual", py "/docs/manual.aux")])
                    []))
          = duplicate_warnings key []).
Proof.
  apply (X6_only_duplicates_are_warned_of Host.file_lines
           (Host.app_with_mapping [(py "manual", py "/docs/manual.aux")])
           (match fst (read_mapping Host.file_lines
                         (Host.app_with_mapping
                            [(py "manual", py "/docs/manual.aux")]) []) with
            | Ok a => a
            | Raise _ => Host.app_with_mapping []
            end)).
  vm_compute. reflexivity.
Defined.

(** ** What a run that returns has read *)

Lemma for_each_Ok_each {A S} (body : A -> S -> M S) (xs : list A) (s s' : S)
    (log log' : list logrec) :
  for_each body xs s log = (Ok s', log') ->
  Forall (fun x => exists t l t' l', body x t l = (Ok t', l')) xs.
Proof.
  revert s log. induction xs as [|x xs IH]; intros s log; [constructor|].
  cbn [for_each]. unfold bind.
  destruct (body x s log) as [[t|e] l] eqn:Hx; [|discriminate].
  intros Hrest. constructor; [eauto | eapply IH, Hrest].
Qed.

Lemma read_line_Ok_well_formed (bibentry line : Py.str) (st st' : reading)
    (log log' : list logrec) :
  read_line bibentry line st log = (Ok st', log') -> well_formed_line line.
Proof.
  unfold read_line, well_formed_line, label_record.
  destruct (AUX_ENTRY_REGEX_match line) as [arguments|]; [|left; reflexivity].
  destruct (Re.findall BRACKETED_VALUE_REGEX arguments)
    as [|label [|section [|page others]]]; try discriminate.
  intros _. right. eexists. reflexivity.
Qed.

Section Readable.

Variable file_lines : Py.str -> option (list Py.str).

Lemma read_aux_file_Ok_readable (item : Py.str * Py.str) (st st' : reading)
    (log log' : list logrec) :
  read_aux_file file_lines item st log = (Ok st', log') ->
  readable_entry file_lines item.
Proof.
  destruct item as [bibentry aux_filename]. unfold read_aux_file, readable_entry.
  cbn [snd]. destruct (file_lines aux_filename) as [lines|]; [|discriminate].
  intros Hloop. exists lines. split; [reflexivity|].
  apply for_each_Ok_each in Hloop. eapply Forall_impl; [exact Hloop|].
  intros line (t & l & t' & l' & Hline).
  eapply read_line_Ok_well_formed, Hline.
Qed.

(** X7: when [read_mapping] returns, every file of the mapping was
    opened and each of its lines either does not invoke the macro or has
    at least three brace groups: a file that cannot be opened or a line
    of the macro with fewer groups, anywhere in the mapping, keeps it from
    returning. *)
Theorem X7_a_returning_run_read_well_formed_files
    (app app' : App) (log log' : list logrec) :
  read_mapping file_lines app log = (Ok app', log') ->
  Forall (readable_entry file_lines) (intertex_mapping (config app)).
Proof.
  unfold read_mapping, bind, ret. intros Hrun.
  destruct (for_each _ _ _ log) as [[st|e] l] eqn:Hloop; [|discriminate].
  apply for_each_Ok_each in Hloop. eapply Forall_impl; [exact Hloop|].
  intros item (t & k & t' & k' & Hitem).
  eapply read_aux_file_Ok_readable, Hitem.
Qed.

(** The loops over the lines leave the uses of citations alone. *)
Lemma read_lines_citation_refs (bibentry : Py.str) (lines : list Py.str)
    (st st' : reading) (log log' : list logrec) :
  for_each (read_line bibentry) lines st log = (Ok st', log') ->
  r_citation_refs st' = r_citation_refs st.
Proof.
  apply (for_each_invariant
           (fun s => r_citation_refs s = r_citation_refs st)); [|reflexivity].
  intros line t t' l l' _ Ht. unfold read_line.
  destruct (AUX_ENTRY_REGEX_match line) as [arguments|];
    [|intros [= <- _]; exact Ht].
  destruct (Re.findall BRACKETED_VALUE_REGEX arguments)
    as [|label [|section [|page others]]]; try discriminate.
  unfold getitem, bind, ret. cbn [lookup list_lookup].
  apply (for_each_invariant
           (fun s => r_citation_refs s = r_citation_refs st)); [|exact Ht].
  intros target u u' k k' _ Hu. unfold define_target, bind, logger_warning, ret.
  destruct (_ && _); intros [= <- _]; exact Hu.
Qed.

(** X8: after a run of [read_mapping] that returns, every bibliography
    entry of the mapping is used by the document named by the empty
    string, beside the documents that used it before; the uses of other
    citations are as they were. *)
Theorem X8_mapped_citations_are_marked_used
    (app app' : App) (log log' : list logrec) (bibentry : Py.str) :
  read_mapping file_lines app log = (Ok app', log') ->
  citation_refs (builder_env app') !! bibentry
  = if bool_decide (bibentry ∈ List.map fst (intertex_mapping (config app)))
    then Some ({[ py "" ]}
               ∪ default ∅ (citation_refs (builder_env app) !! bibentry))
    else citation_refs (builder_env app) !! bibentry.
Proof.
  unfold read_mapping, bind, ret.
  destruct (for_each _ _ _ log) as [[st|e] l] eqn:Hloop; [|discriminate].
  intros [= <- _]. cbn [builder_env citation_refs].
  set (old := citation_refs (builder_env app)) in *.
  pose (J := fun (done : list Py.str) (s : reading) (_ : list logrec) =>
    forall key,
      r_citation_refs s !! key
      = if bool_decide (key ∈ done)
        then Some ({[ py "" ]} ∪ default ∅ (old !! key))
        else old !! key).
  assert (HJ : J ([] ++ flat_map (fun item : Py.str * Py.str => [fst item])
                          (intertex_mapping (config app))) st l).
  { revert Hloop. apply for_each_trace.
    - intros [b f] done s k s' k' _ Hs. unfold read_aux_file.
      destruct (file_lines f) as [lines|]; [|discriminate].
      intros Hlines. apply read_lines_citation_refs in Hlines.
      cbn [r_citation_refs fst] in Hlines. intros key. rewrite Hlines.
      destruct (decide (b = key)) as [<-|Hne].
      + rewrite lookup_insert_eq.
        rewrite bool_decide_eq_true_2
          by (apply elem_of_app; right; apply list_elem_of_singleton; reflexivity).
        rewrite (Hs b). case_bool_decide; [|reflexivity].
        cbn [default id]. f_equal.
        rewrite (assoc_L (∪)), (idemp_L (∪)). reflexivity.
      + rewrite lookup_insert_ne by exact Hne. rewrite (Hs key).
        apply (f_equal (fun c : bool => if c then _ else _)).
        apply bool_decide_ext.
        rewrite elem_of_app, list_elem_of_singleton. split; [tauto|].
        intros [Hin|Heq]; [exact Hin | cbn [fst] in Heq; congruence].
    - intros key. reflexivity. }
  rewrite (HJ bibentry). cbn [Datatypes.app]. rewrite flat_map_one. reflexivity.
Qed.

End Readable.

(** X7 at a mapping of two files that open and hold well-formed lines. *)
Lemma X7_witness :
  Forall (readable_entry Host.file_lines)
    [(py "manual", py "/docs/manual.aux"); (py "guide", py "/docs/guide.aux")].
Proof.
  apply (X7_a_returning_run_read_well_formed_files Host.file_lines
           (Host.app_with_mapping
              [(py "manual", py "/docs/manual.aux");
               (py "guide", py "/docs/guide.aux")])
           (match fst (read_mapping Host.file_lines
                         (Host.app_with_mapping
                            [(py "manual", py "/docs/manual.aux");
                             (py "guide", py "/docs/guide.aux")]) []) with
            | Ok a => a
            | Raise _ => Host.app_with_mapping []
            end)
           []
           (snd (read_mapping Host.file_lines
                   (Host.app_with_mapping
                      [(py "manual", py "/docs/manual.aux");
                       (py "guide", py "/docs/guide.aux")]) []))).
  vm_compute. reflexivity.
Defined.

(** X8 for a citation already used by the document "index". *)
Lemma X8_witness :
  let app := {| config := Host.config_with_mapping
                            [(py "guide", py "/docs/guide.aux")];
                builder_format := py "latex";
                builder_env := {| intertex_refs := ∅;
                                  citations := ∅;
                                  citation_refs :=
                                    {[ py "guide" := {[ py "index" ]} ]} |} |} in
  let r := read_mapping Host.file_lines app [] in
  let app' := match fst r with Ok a => a | Raise _ => app end in
  citation_refs (builder_env app') !! py "guide"
  = if bool_decide (py "guide" ∈ List.map fst (intertex_mapping (config app)))
    then Some ({[ py "" ]}
               ∪ default ∅ (citation_refs (builder_env app) !! py "guide"))
    else citation_refs (builder_env app) !! py "guide".
Proof.
  intros app r app'.
  apply (X8_mapped_citations_are_marked_used Host.file_lines app app' []
           (snd r) (py "guide")).
  vm_compute. reflexivity.
Defined.

(** ** Resolving against the index *)

Section Resolving.

Variable tex_replace_map : gmap N Py.str.
Variable make_refnode : Py.str -> Py.str -> Py.str -> node -> node.
Variable file_lines : Py.str -> option (list Py.str).

Lemma candidates_head (nd : pending_xref) :
  exists others, candidates tex_replace_map nd = reftarget nd :: others.
Proof. unfold candidates. eexists. reflexivity. Qed.

(** X9: for an enabled format, a request whose target is itself a key
    of the index is resolved with the location of that key, whatever the
    index holds for the escaped and hyphenated forms. *)
Theorem X9_exact_target_wins
    (app : App) (env : Env) (nd : pending_xref) (contnode : node)
    (log : list logrec) (loc : location) :
  builder_format app ∈ intertex_formats (config app) ->
  intertex_refs env !! reftarget nd = Some loc ->
  missing_reference tex_replace_map make_refnode app env nd contnode log
  = formatted make_refnode app nd contnode loc log.
Proof.
  intros Hformat Hkey. unfold missing_reference.
  rewrite bool_decide_eq_true_2 by exact Hformat.
  rewrite reftargets_to_try_candidates.
  destruct (candidates_head nd) as [others ->].
  cbn [try_reftargets]. unfold location in *. rewrite Hkey.
  destruct loc as [[bibentry section] page]. reflexivity.
Qed.

(** X10: for an enabled format and a module reference, a target that is
    not a key of the index is resolved with the location of the target
    prefixed with "module-" when the index holds that key. *)
Theorem X10_module_prefix_is_tried_second
    (app : App) (env : Env) (nd : pending_xref) (contnode : node)
    (log : list logrec) (loc : location) :
  builder_format app ∈ intertex_formats (config app) ->
  reftype nd = py "mod" ->
  intertex_refs env !! reftarget nd = None ->
  intertex_refs env !! (py "module-" ++ reftarget nd) = Some loc ->
  missing_reference tex_replace_map make_refnode app env nd contnode log
  = formatted make_refnode app nd contnode loc log.
Proof.
  intros Hformat Hmod Hmiss Hkey. unfold missing_reference.
  rewrite bool_decide_eq_true_2 by exact Hformat.
  rewrite reftargets_to_try_candidates. unfold candidates.
  rewrite bool_decide_eq_true_2 by exact Hmod.
  cbn [Datatypes.app try_reftargets]. unfold location in *.
  rewrite Hmiss, Hkey. destruct loc as [[bibentry section] page]. reflexivity.
Qed.

(** X11: what [read_mapping] wrote last for a key is what
    [missing_reference] resolves a request for that key with, in a
    format that is enabled. *)
Theorem X11_a_label_read_is_resolved
    (app app' : App) (nd : pending_xref) (contnode : node)
    (log log' log'' : list logrec) (loc : location) :
  read_mapping file_lines app log = (Ok app', log') ->
  builder_format app ∈ intertex_formats (config app) ->
  last_write (reftarget nd)
    (mapping_writes file_lines (intertex_mapping (config app))) = Some loc ->
  missing_reference tex_replace_map make_refnode app' (builder_env app') nd
    contnode log''
  = formatted make_refnode app' nd contnode loc log''.
Proof.
  intros Hrun Hformat Hlast.
  destruct (read_mapping_invariant _ _ _ _ _ Hrun)
    as (st & Hst & extra & _ & _ & Hrefs & _).
  assert (Hsame : builder_format app' = builder_format app
                  /\ config app' = config app).
  { revert Hrun. unfold read_mapping, bind, ret.
    destruct (for_each _ _ _ log) as [[s|e] l]; [|discriminate].
    intros [= <- _]. split; reflexivity. }
  destruct Hsame as [Hf Hc].
  unfold missing_reference. rewrite Hf, Hc.
  rewrite bool_decide_eq_true_2 by exact Hformat.
  rewrite reftargets_to_try_candidates.
  destruct (candidates_head nd) as [others ->].
  cbn [try_reftargets]. unfold location in *. rewrite Hst, Hrefs, Hlast.
  destruct loc as [[bibentry section] page]. reflexivity.
Qed.

End Resolving.

(** X9 at a request whose hyphenated form is in the index too. *)
Lemma X9_witness :
  missing_reference Host.tex_replace_map Host.make_refnode
    (Host.app (py "latex")
       {[ py "foo_bar" := (py "manual", py "1", py "3");
          py "foo-bar" := (py "manual", py "2", py "5") ]})
    (Host.env {[ py "foo_bar" := (py "manual", py "1", py "3");
                 py "foo-bar" := (py "manual", py "2", py "5") ]})
    (Host.xref (py "foo_bar") (py "ref")) (Text (py "foo_bar")) []
  = formatted Host.make_refnode
      (Host.app (py "latex")
         {[ py "foo_bar" := (py "manual", py "1", py "3");
            py "foo-bar" := (py "manual", py "2", py "5") ]})
      (Host.xref (py "foo_bar") (py "ref")) (Text (py "foo_bar"))
      (py "manual", py "1", py "3") [].
Proof.
  apply X9_exact_target_wins.
  - apply (bool_decide_eq_true_1 _). vm_compute. reflexivity.
  - vm_compute. reflexivity.
Defined.

(** X10 at a reference to the module "os.path". *)
Lemma X10_witness :
  missing_reference Host.tex_replace_map Host.make_refnode
    (Host.app (py "latex") {[ py "module-os.path" := (py "manual", py "4", py "9") ]})
    (Host.env {[ py "module-os.path" := (py "manual", py "4", py "9") ]})
    (Host.xref (py "os.path") (py "mod")) (Text (py "os.path")) []
  = formatted Host.make_refnode
      (Host.app (py "latex")
         {[ py "module-os.path" := (py "manual", py "4", py "9") ]})
      (Host.xref (py "os.path") (py "mod")) (Text (py "os.path"))
      (py "manual", py "4", py "9") [].
Proof.
  apply X10_module_prefix_is_tried_second.
  - apply (bool_decide_eq_true_1 _). vm_compute. reflexivity.
  - reflexivity.
  - vm_compute. reflexivity.
  - vm_compute. reflexivity.
Defined.

(** X11 at the label "guide:setup", requested as "setup". *)
Lemma X11_witness :
  let app := Host.app_with_mapping [(py "guide", py "/docs/guide.aux")] in
  let r := read_mapping Host.file_lines app [] in
  let app' := match fst r with Ok a => a | Raise _ => app end in
  missing_reference Host.tex_replace_map Host.make_refnode app'
    (builder_env app') (Host.xref (py "setup") (py "ref")) (Text (py "Setup")) []
  = formatted Host.make_refnode app' (Host.xref (py "setup") (py "ref"))
      (Text (py "Setup")) (py "guide", py "2", py "4") [].
Proof.
  intros app r app'.
  apply (X11_a_label_read_is_resolved Host.tex_replace_map Host.make_refnode
           Host.file_lines app app' (Host.xref (py "setup") (py "ref"))
           (Text (py "Setup")) [] (snd r) []).
  - vm_compute. reflexivity.
  - apply (bool_decide_eq_true_1 _). vm_compute. reflexivity.
  - vm_compute. reflexivity.
Defined.

(** ** The escaped label and the keys of a label *)

Lemma hex_digit_ascii (d : N) : d < 16 -> Py.hex_digit d < 128.
Proof.
  intros Hd. unfold Py.hex_digit. destruct (d <? 10); lia.
Qed.

Lemma hex_ascii (k : nat) (n : N) : Forall (fun x => x < 128) (Py.hex k n).
Proof.
  revert n. induction k as [|k IH]; intros n; [constructor|].
  cbn [Py.hex]. apply Forall_app. split; [apply IH|].
  constructor; [|constructor]. apply hex_digit_ascii.
  apply N.mod_lt. discriminate.
Qed.

Lemma backslashreplace_char_ascii (c : N) :
  Forall (fun x => x < 128) (Py.backslashreplace_char c).
Proof.
  unfold Py.backslashreplace_char.
  destruct (c <? 128) eqn:Hc.
  - constructor; [apply N.ltb_lt, Hc | constructor].
  - destruct (c <? 256); [|destruct (c <? 65536)];
      (constructor; [reflexivity|]); (constructor; [reflexivity|]);
      apply hex_ascii.
Qed.

(** X12: whatever the escaping table, the escaped form of a target that
    [missing_reference] tries is made of ASCII characters and holds no
    backslash. *)
Theorem X12_escaped_target_is_ascii_without_backslash
    (tex_replace_map : gmap N Py.str) (reftarget : Py.str) :
  Forall (fun c => c < 128 /\ c <> 92) (tex_label tex_replace_map reftarget).
Proof.
  unfold tex_label, Py.replace, Py.ascii_backslashreplace.
  rewrite Forall_forall. intros c Hc.
  apply list_elem_of_In, in_map_iff in Hc as (x & <- & Hx).
  apply in_flat_map in Hx as (y & _ & Hx).
  pose proof (backslashreplace_char_ascii y) as Hascii.
  rewrite Forall_forall in Hascii.
  specialize (Hascii x (proj2 (list_elem_of_In _ _) Hx)).
  destruct (x =? 92) eqn:E; [split; [reflexivity|discriminate]|].
  apply N.eqb_neq in E. split; assumption.
Qed.

Lemma partition_after_first (sep : N) (s : Py.str) :
  Py.contains sep s = true ->
  exists scope,
    Py.contains sep scope = false
    /\ s = scope ++ sep :: Py.partition_after sep s.
Proof.
  unfold Py.contains. induction s as [|c t IH]; [discriminate|].
  cbn [existsb Py.partition_after]. rewrite (N.eqb_sym c sep).
  destruct (sep =? c) eqn:E.
  - intros _. apply N.eqb_eq in E. subst c. exists []. split; reflexivity.
  - cbn [orb]. intros Ht. destruct (IH Ht) as (scope & Hscope & Hs).
    exists (c :: scope). split.
    + cbn [existsb]. rewrite E. exact Hscope.
    + cbn [Datatypes.app]. congruence.
Qed.

(** X13: the keys of a label are the label alone when it has no colon;
    otherwise they are the label and what follows its first colon, and
    the two differ. *)
Theorem X13_keys_of_a_label (label : Py.str) :
  exists scope,
    Py.contains 58 scope = false
    /\ ((label = scope /\ sphinx_targets label = [label])
        \/ (exists key,
              label = scope ++ 58 :: key
              /\ sphinx_targets label = [label; key]
              /\ key <> label)).
Proof.
  unfold sphinx_targets. destruct (Py.contains 58 label) eqn:Hcolon.
  - destruct (partition_after_first 58 label Hcolon) as (scope & Hscope & Hlabel).
    exists scope. split; [exact Hscope|]. right.
    exists (Py.partition_after 58 label).
    split; [exact Hlabel|]. split; [reflexivity|].
    intros Heq. apply (f_equal (@length N)) in Hlabel.
    rewrite length_app in Hlabel. cbn [length] in Hlabel.
    rewrite Heq in Hlabel. lia.
  - exists label. split; [exact Hcolon|]. left. split; reflexivity.
Qed.

(** ** The new mapping and the log of the path resolver *)

Lemma dict_set_fresh {V} (k : Py.str) (v : V) (d : dict Py.str V) :
  ~ In k (List.map fst d) -> dict_set k v d = d ++ [(k, v)].
Proof.
  induction d as [|[k0 v0] d IH]; intros Hfresh; [reflexivity|].
  cbn [dict_set Datatypes.app]. rewrite bool_decide_eq_false_2.
  - rewrite IH; [reflexivity|]. intros Hin. apply Hfresh. right. exact Hin.
  - intros Heq. apply Hfresh. left. exact Heq.
Qed.

Lemma for_each_Raise_some {A S} (body : A -> S -> M S) (xs : list A) (s : S)
    (log log' : list logrec) (e : exn) :
  for_each body xs s log = (Raise e, log') ->
  exists x t l l', In x xs /\ body x t l = (Raise e, l').
Proof.
  revert s log. induction xs as [|x xs IH]; intros s log; [discriminate|].
  cbn [for_each]. unfold bind.
  destruct (body x s log) as [[t|e'] l] eqn:Hx.
  - intros Hrest. destruct (IH _ _ Hrest) as (y & u & k & k' & Hy & Hbody).
    exists y, u, k, k'. split; [right; exact Hy | exact Hbody].
  - intros [= <- <-]. exists x, s, log, l. split; [left; reflexivity | exact Hx].
Qed.

Lemma sub_pieces_Raise_some (repl : Py.str -> res Py.str)
    (ms : list (Py.str * Py.str)) (tl : Py.str) (e : exn) :
  Re.sub_pieces repl ms tl = Raise e ->
  exists cap, In cap (List.map snd ms) /\ repl cap = Raise e.
Proof.
  induction ms as [|[lit cap] ms IH]; [discriminate|].
  cbn [Re.sub_pieces List.map snd].
  destruct (repl cap) as [r|e'] eqn:Hcap.
  - destruct (Re.sub_pieces repl ms tl) as [out|e'']; [discriminate|].
    intros [= <-]. destruct (IH eq_refl) as (cap' & Hin & Hraise).
    exists cap'. split; [right; exact Hin | exact Hraise].
  - intros [= <-]. exists cap. split; [left; reflexivity | exact Hcap].
Qed.

Section NewMapping.

Variable module : Type.
Variable import_module : Py.str -> res module.
Variable getsourcefile : module -> res (option Py.str).
Variable dirname : Py.str -> Py.str.
Variable normpath : Py.str -> Py.str.
Variable glob : Py.str -> list Py.str.

Local Abbreviation substitute :=
  (Re.sub BRACKETED_MODULE_NAME_REGEX
     (module_directory module import_module getsourcefile dirname)).
Local Abbreviation entry :=
  (expand_entry module import_module getsourcefile dirname normpath glob).
Local Abbreviation expand :=
  (expand_aux_file_names module import_module getsourcefile dirname normpath
     glob).
Local Abbreviation resolved :=
  (resolved_entry module import_module getsourcefile dirname normpath glob).
Local Abbreviation logged :=
  (entry_log module import_module getsourcefile dirname normpath glob).

(** An iteration that returns has logged the record of its entry and
    set the entry it resolved to, if any. *)
Lemma expand_entry_Ok (item : Py.str * Py.str) (new new' : dict Py.str Py.str)
    (log log' : list logrec) :
  entry item new log = (Ok new', log') ->
  log' = log ++ logged item
  /\ new' = match resolved item with
            | Some (bibentry, filename) => dict_set bibentry filename new
            | None => new
            end.
Proof.
  destruct item as [bibentry pattern].
  unfold expand_entry, resolved_entry, entry_matches, entry_log.
  cbn [fst snd]. destruct (substitute pattern) as [p|e].
  - destruct (glob (normpath p)) as [|first [|second others]];
      intros [= <- <-]; split; try reflexivity.
    symmetry. apply app_nil_r.
  - destruct e; try discriminate. intros [= <- <-]. split; reflexivity.
Qed.

Lemma resolved_key (item : Py.str * Py.str) (bibentry filename : Py.str) :
  resolved item = Some (bibentry, filename) -> bibentry = fst item.
Proof.
  unfold resolved_entry. destruct (entry_matches _ _ _ _ _ _ item);
    [discriminate|]. intros [= <- _]. reflexivity.
Qed.

Lemma resolved_keys (done : dict Py.str Py.str) (key : Py.str) :
  In key (List.map fst (omap resolved done)) -> In key (List.map fst done).
Proof.
  intros Hin. apply in_map_iff in Hin as ([b f] & <- & Hin).
  apply list_elem_of_In, list_elem_of_omap in Hin as (item & Hitem & Hres).
  apply resolved_key in Hres. cbn [fst]. subst b.
  apply in_map, list_elem_of_In, Hitem.
Qed.

(** The loop of [expand_aux_file_names], entry after entry. *)
Lemma expand_loop (items : dict Py.str Py.str) (new : dict Py.str Py.str)
    (log log' : list logrec) :
  for_each entry items [] log = (Ok new, log') ->
  log' = log ++ flat_map logged items
  /\ (List.NoDup (List.map fst items) -> new = omap resolved items).
Proof.
  intros Hloop.
  pose (J := fun (done : dict Py.str Py.str) (d : dict Py.str Py.str)
                 (l : list logrec) =>
    l = log ++ flat_map logged done
    /\ (List.NoDup (List.map fst done) -> d = omap resolved done)).
  assert (HJ : J ([] ++ flat_map (fun item => [item]) items) new log').
  { revert Hloop. apply for_each_trace.
    - intros item done d l d' l' _ [Hl Hd] Hstep.
      apply expand_entry_Ok in Hstep as [-> ->]. split.
      + rewrite Hl, flat_map_app, <- app_assoc. cbn [flat_map].
        rewrite app_nil_r. reflexivity.
      + intros Hnodup. rewrite List.map_app in Hnodup.
        pose proof (NoDup_app_remove_r _ _ Hnodup) as Hdone.
        rewrite omap_app, (Hd Hdone). cbn [omap list_omap].
        destruct (resolved item) as [[b f]|] eqn:Hres;
          [|symmetry; apply app_nil_r].
        apply dict_set_fresh. intros Hin. apply resolved_keys in Hin.
        apply resolved_key in Hres. subst b.
        apply NoDup_ListNoDup, NoDup_app in Hnodup as (_ & Hdisjoint & _).
        apply (Hdisjoint (fst item)); [apply list_elem_of_In, Hin|].
        cbn [List.map]. apply list_elem_of_here.
    - split; [symmetry; apply app_nil_r | reflexivity]. }
  cbn [Datatypes.app] in HJ. rewrite flat_map_one, List.map_id in HJ. exact HJ.
Qed.

(** X14: when the keys of the configured mapping are distinct and
    [expand_aux_file_names] returns, the new mapping lists, in the order
    of the configured mapping, exactly the entries whose pattern matches
    at least one file, each with its first match. *)
Theorem X14_new_mapping_keeps_order_and_first_matches
    (cfg cfg' : Config) (log log' : list logrec) :
  expand cfg log = (Ok cfg', log') ->
  List.NoDup (List.map fst (intertex_mapping cfg)) ->
  intertex_mapping cfg' = omap resolved (intertex_mapping cfg).
Proof.
  unfold expand_aux_file_names, bind, ret.
  destruct (for_each _ _ [] log) as [[new|e] l] eqn:Hloop; [|discriminate].
  intros [= <- _]. cbn [intertex_mapping].
  apply (expand_loop _ _ _ _ Hloop).
Qed.

(** X15: when [expand_aux_file_names] returns, the log has grown by the
    records of the entries in the order of the configured mapping, at
    most one per entry; the reference format and the enabled formats are
    as configured. *)
Theorem X15_one_record_per_entry_in_order
    (cfg cfg' : Config) (log log' : list logrec) :
  expand cfg log = (Ok cfg', log') ->
  log' = log ++ flat_map logged (intertex_mapping cfg)
  /\ (forall item, (length (logged item) <= 1)%nat)
  /\ intertex_reference_format cfg' = intertex_reference_format cfg
  /\ intertex_formats cfg' = intertex_formats cfg.
Proof.
  unfold expand_aux_file_names, bind, ret.
  destruct (for_each _ _ [] log) as [[new|e] l] eqn:Hloop; [|discriminate].
  intros [= <- <-]. split; [apply (expand_loop _ _ _ _ Hloop)|].
  split; [|split; reflexivity].
  intros [bibentry pattern]. unfold entry_log. cbn [fst snd].
  destruct (substitute pattern) as [p|e].
  - destruct (glob (normpath p)) as [|first [|second others]]; cbn; lia.
  - destruct e; cbn; lia.
Qed.

(** X16: an exception that [expand_aux_file_names] raises is not an
    [ImportError]; it was raised while the directory of a module named in
    a pattern of the mapping was looked up. *)
Theorem X16_raises_only_from_a_module_lookup
    (cfg : Config) (log log' : list logrec) (e : exn) :
  expand cfg log = (Raise e, log') ->
  (forall name msg, e <> ImportError name msg)
  /\ exists bibentry pattern name,
       In (bibentry, pattern) (intertex_mapping cfg)
       /\ In name (Re.findall BRACKETED_MODULE_NAME_REGEX pattern)
       /\ module_directory module import_module getsourcefile dirname name
          = Raise e.
Proof.
  unfold expand_aux_file_names, bind, ret.
  destruct (for_each _ _ [] log) as [[new|e'] l] eqn:Hloop; [discriminate|].
  intros [= <- <-].
  apply for_each_Raise_some in Hloop
    as ([bibentry pattern] & t & k & k' & Hin & Hstep).
  unfold expand_entry in Hstep.
  destruct (substitute pattern) as [p|e''] eqn:Hsub.
  - destruct (glob (normpath p)) as [|first [|second others]]; discriminate.
  - assert (He : e'' = e' /\ forall name msg, e' <> ImportError name msg).
    { unfold bind, logger_error, ret, raise in Hstep.
      destruct e''; try discriminate; injection Hstep as <- _;
        (split; [reflexivity | discriminate]). }
    destruct He as [-> Hnot]. split; [exact Hnot|].
    unfold Re.sub in Hsub. unfold Re.findall.
    destruct (Re.finditer BRACKETED_MODULE_NAME_REGEX pattern) as [ms tl]
      eqn:Hscan.
    apply sub_pieces_Raise_some in Hsub as (name & Hname & Hraise).
    exists bibentry, pattern, name. rewrite Hscan.
    split; [exact Hin|]. split; [exact Hname | exact Hraise].
Qed.

End NewMapping.

(** X14 at a mapping of three entries of which the second is dropped. *)
Lemma X14_witness :
  let cfg := Host.config_with_mapping
               [(py "intertex", py "{sphinxcontrib.intertex}doc.aux");
                (py "empty", py "/nowhere/*.aux");
                (py "manual", py "/docs/build/*.aux")] in
  let r := expand_aux_file_names nat Host.import_module Host.getsourcefile
             Host.dirname Host.normpath Host.glob cfg [] in
  intertex_mapping (match fst r with Ok c => c | Raise _ => cfg end)
  = omap (resolved_entry nat Host.import_module Host.getsourcefile
            Host.dirname Host.normpath Host.glob)
      (intertex_mapping cfg).
Proof.
  intros cfg r.
  apply (X14_new_mapping_keeps_order_and_first_matches nat Host.import_module
           Host.getsourcefile Host.dirname Host.normpath Host.glob cfg
           (match fst r with Ok c => c | Raise _ => cfg end) [] (snd r)).
  - vm_compute. reflexivity.
  - apply NoDup_ListNoDup, (bool_decide_unpack _). vm_compute. exact I.
Defined.

(** X15 at the same mapping. *)
Lemma X15_witness :
  let cfg := Host.config_with_mapping
               [(py "intertex", py "{sphinxcontrib.intertex}doc.aux");
                (py "empty", py "/nowhere/*.aux");
                (py "manual", py "/docs/build/*.aux")] in
  let r := expand_aux_file_names nat Host.import_module Host.getsourcefile
             Host.dirname Host.normpath Host.glob cfg [] in
  snd r
  = [] ++ flat_map (entry_log nat Host.import_module Host.getsourcefile
                      Host.dirname Host.normpath Host.glob)
            (intertex_mapping cfg).
Proof.
  intros cfg r.
  apply (X15_one_record_per_entry_in_order nat Host.import_module
           Host.getsourcefile Host.dirname Host.normpath Host.glob cfg
           (match fst r with Ok c => c | Raise _ => cfg end) [] (snd r)).
  vm_compute. reflexivity.
Defined.

(** X16 at a pattern naming a C extension module. *)
Lemma X16_witness :
  (forall name msg, TypeError <> ImportError name msg)
  /\ exists bibentry pattern name,
       In (bibentry, pattern) [(py "sockets", py "{_socket}doc.aux")]
       /\ In name (Re.findall BRACKETED_MODULE_NAME_REGEX pattern)
       /\ module_directory nat Host.import_module Host.getsourcefile
            Host.dirname name
          = Raise TypeError.
Proof.
  apply (X16_raises_only_from_a_module_lookup nat Host.import_module
           Host.getsourcefile Host.dirname Host.normpath Host.glob
           (Host.config_with_mapping [(py "sockets", py "{_socket}doc.aux")])
           [] []).
  vm_compute. reflexivity.
Defined.

(** ** Substituting module names *)

Lemma finditer_no_brace (s : Py.str) :
  ~ In 123 s -> Re.finditer BRACKETED_MODULE_NAME_REGEX s = ([], s).
Proof.
  induction s as [|c t IH]; intros Hs; [reflexivity|].
  rewrite (finditer_no_match _ BRACKETED_MODULE_NAME_REGEX_consuming).
  - rewrite IH; [reflexivity|]. intros Hin. apply Hs. right. exact Hin.
  - apply module_token_needs_brace. intros ->. apply Hs. left. reflexivity.
Qed.

Lemma sub_no_brace (repl : Py.str -> res Py.str) (s : Py.str) :
  ~ In 123 s -> Re.sub BRACKETED_MODULE_NAME_REGEX repl s = Ok s.
Proof. intros Hs. unfold Re.sub. rewrite (finditer_no_brace s Hs). reflexivity. Qed.

Section Substitution.

Variable module : Type.
Variable import_module : Py.str -> res module.
Variable getsourcefile : module -> res (option Py.str).
Variable dirname : Py.str -> Py.str.
Variable normpath : Py.str -> Py.str.
Variable glob : Py.str -> list Py.str.

(** X17: a pattern without an opening brace is left as it is by the
    substitution of module names, whatever can be imported: its entry is
    settled by the files its normalised pattern matches. *)
Theorem X17_pattern_without_brace_is_only_globbed
    (bibentry pattern : Py.str) (new : dict Py.str Py.str) (log : list logrec) :
  ~ In 123 pattern ->
  expand_entry module import_module getsourcefile dirname normpath glob
    (bibentry, pattern) new log
  = match glob (normpath pattern) with
    | [] =>
        (Ok new, log ++ [(ERROR, NoAuxFilesMatching (normpath pattern) bibentry)])
    | [first] => (Ok (dict_set bibentry first new), log)
    | first :: _ :: _ =>
        (Ok (dict_set bibentry first new),
         log ++ [(ERROR, MultipleAuxFilesMatching (normpath pattern) bibentry
                           first)])
    end.
Proof.
  intros Hpattern. apply expand_entry_glob. apply sub_no_brace, Hpattern.
Qed.

(** X18: in a pattern with one module name between braces, the name and
    its braces are replaced by the directory of the source file of the
    module followed by a slash; the text around it is kept. *)
Theorem X18_module_name_becomes_its_directory
    (lit name rest sourcefile : Py.str) (m : module) :
  ~ In 123 lit -> ~ In 123 rest ->
  name <> [] -> forallb is_module_name_char name = true ->
  import_module name = Ok m ->
  getsourcefile m = Ok (Some sourcefile) ->
  Re.sub BRACKETED_MODULE_NAME_REGEX
    (module_directory module import_module getsourcefile dirname)
    (lit ++ py "{" ++ name ++ py "}" ++ rest)
  = Ok (lit ++ dirname sourcefile ++ py "/" ++ rest).
Proof.
  intros Hlit Hrest Hname Hchars Himport Hsource.
  change (py "{") with [123]. change (py "}") with [125].
  cbn [Datatypes.app].
  rewrite (sub_first_match _ BRACKETED_MODULE_NAME_REGEX_consuming
             _ lit 123 (name ++ 125 :: rest) name rest).
  - unfold module_directory. rewrite Himport, Hsource.
    rewrite (sub_no_brace _ rest Hrest). rewrite <- !app_assoc. reflexivity.
  - intros x suffix Hx. apply module_token_needs_brace.
    intros ->. apply Hlit, list_elem_of_In, Hx.
  - apply module_token_matches; assumption.
Qed.

End Substitution.

(** X17 at a pattern of the example project, which matches nothing
    here. *)
Lemma X17_witness :
  expand_entry nat Host.import_module Host.getsourcefile Host.dirname
    Host.normpath Host.glob
    (py "latex-doc", py "../latex_doc/*.aux") [] []
  = match Host.glob (Host.normpath (py "../latex_doc/*.aux")) with
    | [] =>
        (Ok [], [] ++ [(ERROR, NoAuxFilesMatching
                                 (Host.normpath (py "../latex_doc/*.aux"))
                                 (py "latex-doc"))])
    | [first] => (Ok (dict_set (py "latex-doc") first []), [])
    | first :: _ :: _ =>
        (Ok (dict_set (py "latex-doc") first []),
         [] ++ [(ERROR, MultipleAuxFilesMatching
                          (Host.normpath (py "../latex_doc/*.aux"))
                          (py "latex-doc") first)])
    end.
Proof.
  apply X17_pattern_without_brace_is_only_globbed.
  vm_compute. intros H. repeat (destruct H as [H|H]; [discriminate|]). exact H.
Defined.

(** X18 at the module of the extension itself. *)
Lemma X18_witness :
  Re.sub BRACKETED_MODULE_NAME_REGEX
    (module_directory nat Host.import_module Host.getsourcefile Host.dirname)
    (py "docs/" ++ py "{" ++ py "sphinxcontrib.intertex" ++ py "}"
     ++ py "build/doc.aux")
  = Ok (py "docs/"
        ++ Host.dirname (py "/site/sphinxcontrib/intertex/__init__.py")
        ++ py "/" ++ py "build/doc.aux").
Proof.
  apply (X18_module_name_becomes_its_directory nat Host.import_module
           Host.getsourcefile Host.dirname (py "docs/")
           (py "sphinxcontrib.intertex") (py "build/doc.aux")
           (py "/site/sphinxcontrib/intertex/__init__.py") 0%nat).
  - vm_compute. intros H. repeat (destruct H as [H|H]; [discriminate|]). exact H.
  - vm_compute. intros H. repeat (destruct H as [H|H]; [discriminate|]). exact H.
  - discriminate.
  - vm_compute. reflexivity.
  - vm_compute. reflexivity.
  - reflexivity.
Defined.

(** ** What the index can hold *)

Lemma label_record_brace_free (line label section page : Py.str) :
  label_record line = Some (label, section, page) ->
  forallb is_not_brace label = true
  /\ forallb is_not_brace section = true
  /\ forallb is_not_brace page = true.
Proof.
  unfold label_record.
  destruct (AUX_ENTRY_REGEX_match line) as [arguments|]; [|discriminate].
  pose proof (findall_captures BRACKETED_VALUE_REGEX
                (fun cap => forallb is_not_brace cap = true) arguments) as Hall.
  destruct (Re.findall BRACKETED_VALUE_REGEX arguments)
    as [|l [|s [|p others]]]; try discriminate.
  intros [= <- <- <-].
  assert (H : Forall (fun cap => forallb is_not_brace cap = true)
                (l :: s :: p :: others)).
  { apply Hall. intros x cap rest Hx.
    apply BRACKETED_VALUE_REGEX_match in Hx. tauto. }
  apply Forall_cons in H as [Hl H]. apply Forall_cons in H as [Hs H].
  apply Forall_cons in H as [Hp _]. auto.
Qed.

Lemma partition_after_forallb (f : N -> bool) (sep : N) (s : Py.str) :
  forallb f s = true -> forallb f (Py.partition_after sep s) = true.
Proof.
  induction s as [|c t IH]; [reflexivity|]. cbn [forallb Py.partition_after].
  intros H. apply andb_prop in H as [_ Ht].
  destruct (c =? sep); [exact Ht | apply IH, Ht].
Qed.

Lemma sphinx_targets_forallb (f : N -> bool) (label target : Py.str) :
  forallb f label = true -> In target (sphinx_targets label) ->
  forallb f target = true.
Proof.
  intros Hlabel. unfold sphinx_targets. cbn [Datatypes.app].
  intros [<-|Hin]; [exact Hlabel|].
  destruct (Py.contains 58 label); [|destruct Hin].
  destruct Hin as [<-|[]]. apply partition_after_forallb, Hlabel.
Qed.

Section IndexEntries.

Variable file_lines : Py.str -> option (list Py.str).

Lemma mapping_writes_In (mapping : dict Py.str Py.str) (key : Py.str)
    (bibentry section page : Py.str) :
  In (key, (bibentry, section, page)) (mapping_writes file_lines mapping) ->
  In bibentry (List.map fst mapping)
  /\ exists line label,
       label_record line = Some (label, section, page)
       /\ In key (sphinx_targets label).
Proof.
  unfold mapping_writes. intros Hin.
  apply in_flat_map in Hin as ([b f] & Hitem & Hin).
  apply in_flat_map in Hin as (line & _ & Hin).
  unfold line_writes in Hin.
  destruct (label_record line) as [[[label s] p]|] eqn:Hrecord; [|destruct Hin].
  apply in_map_iff in Hin as (target & Heq & Htarget).
  injection Heq as -> -> -> ->.
  split; [apply (in_map fst _ _ Hitem)|].
  exists line, label. split; [exact Hrecord | exact Htarget].
Qed.

(** X19: after a run of [read_mapping] that returns, every location in
    the index names a bibliography entry of the mapping, and neither its
    key nor its section nor its page holds a brace. *)
Theorem X19_index_entries_come_from_the_mapping
    (app app' : App) (log log' : list logrec)
    (key bibentry section page : Py.str) :
  read_mapping file_lines app log = (Ok app', log') ->
  intertex_refs (builder_env app') !! key = Some (bibentry, section, page) ->
  In bibentry (List.map fst (intertex_mapping (config app)))
  /\ forallb is_not_brace key = true
  /\ forallb is_not_brace section = true
  /\ forallb is_not_brace page = true.
Proof.
  intros Hrun Hkey.
  destruct (read_mapping_invariant _ _ _ _ _ Hrun)
    as (st & Hst & extra & _ & _ & Hrefs & _).
  unfold location in *. rewrite Hst, Hrefs in Hkey.
  apply last_write_In, mapping_writes_In in Hkey
    as (Hbib & line & label & Hrecord & Htarget).
  apply label_record_brace_free in Hrecord as (Hl & Hs & Hp).
  split; [exact Hbib|]. split; [|split; [exact Hs | exact Hp]].
  exact (sphinx_targets_forallb _ _ _ Hl Htarget).
Qed.

End IndexEntries.

(** X19 at the key "setup" of the file read for "guide". *)
Lemma X19_witness :
  let app := Host.app_with_mapping [(py "guide", py "/docs/guide.aux")] in
  In (py "guide") (List.map fst (intertex_mapping (config app)))
  /\ forallb is_not_brace (py "setup") = true
  /\ forallb is_not_brace (py "2") = true
  /\ forallb is_not_brace (py "4") = true.
Proof.
  intros app.
  apply (X19_index_entries_come_from_the_mapping Host.file_lines app
           (match fst (read_mapping Host.file_lines app []) with
            | Ok a => a
            | Raise _ => app
            end)
           [] (snd (read_mapping Host.file_lines app [])) (py "setup")).
  - vm_compute. reflexivity.
  - vm_compute. reflexivity.
Defined.

(** ** What resolving logs and raises *)

Lemma fill_format_Raise_some (subst : Py.str -> res node)
    (ms : list (Py.str * Py.str)) (tl : Py.str) (acc : list node) (e : exn) :
  fill_format subst (pieces ms tl) acc = Raise e ->
  exists cap, In cap (List.map snd ms) /\ subst cap = Raise e.
Proof.
  revert acc. induction ms as [|[lit cap] ms IH]; intros acc; [discriminate|].
  unfold pieces. cbn [flat_map Datatypes.app fill_format List.map snd].
  destruct (subst cap) as [n|e'] eqn:Hcap.
  - intros Hfill. destruct (IH _ Hfill) as (cap' & Hin & Hraise).
    exists cap'. split; [right; exact Hin | exact Hraise].
  - intros [= <-]. exists cap. split; [left; reflexivity | exact Hcap].
Qed.

Section ResolvingEffects.

Variable tex_replace_map : gmap N Py.str.
Variable make_refnode : Py.str -> Py.str -> Py.str -> node -> node.



Lemma make_pdf_reference_Raise (app : App) (bibentry section page : Py.str)
    (contnode : node) (refdoc : Py.str) (log : list logrec) (e : exn) :
  fst (make_pdf_reference make_refnode app bibentry section page contnode
         refdoc log) = Raise e ->
  exists name,
    e = KeyError name
    /\ In name (Re.findall BRACKETED_VALUE_REGEX
                  (intertex_reference_format (config app)))
    /\ known_placeholder name = false.
Proof.
  unfold make_pdf_reference, bind, lift, ret.
  destruct (make_bib_reference_returns make_refnode app bibentry refdoc log)
    as (bibref & l & ->).
  rewrite split_pieces. unfold Re.findall.
  destruct (fill_format _ _ []) as [children|e'] eqn:Hfill; [discriminate|].
  cbn [fst]. intros [= <-].
  apply fill_format_Raise_some in Hfill as (name & Hin & Hraise).
  exists name. destruct (known_placeholder name) eqn:Hknown.
  - destruct (placeholder_known make_refnode contnode bibref section page
                name Hknown) as [n Hn]. congruence.
  - rewrite (placeholder_unknown make_refnode contnode bibref section page
               name Hknown) in Hraise.
    injection Hraise as <-. auto.
Qed.


(** X21: the only exception [missing_reference] raises is a [KeyError]
    for a brace group of the reference format that names none of label,
    bibref, section and page; with a format all of whose groups name one
    of them it always returns. *)
Theorem X21_resolving_raises_only_for_an_unknown_placeholder
    (app : App) (env : Env) (nd : pending_xref) (contnode : node)
    (log : list logrec) (e : exn) :
  fst (missing_reference tex_replace_map make_refnode app env nd contnode log)
  = Raise e ->
  exists name,
    e = KeyError name
    /\ In name (Re.findall BRACKETED_VALUE_REGEX
                  (intertex_reference_format (config app)))
    /\ known_placeholder name = false.
Proof.
  unfold missing_reference. case_bool_decide; [|discriminate].
  destruct (try_reftargets_first_hit make_refnode app env nd contnode
              (reftargets_to_try tex_replace_map nd) log)
    as [(tried & key & rest & [[bibentry section] page] & _ & _ & Hkey & ->)
       |[_ ->]]; [|discriminate].
  unfold formatted, bind, ret.
  destruct (make_pdf_reference make_refnode app bibentry section page contnode
              (refdoc nd) log) as [[n|e'] l] eqn:Hpdf; [discriminate|].
  cbn [fst]. intros [= <-].
  apply (make_pdf_reference_Raise app bibentry section page contnode
           (refdoc nd) log).
  rewrite Hpdf. reflexivity.
Qed.

End ResolvingEffects.

(** X21 at a format with the unknown placeholder "chapter". *)
Lemma X21_witness :
  exists name,
    KeyError (py "chapter") = KeyError name
    /\ In name (Re.findall BRACKETED_VALUE_REGEX (py "{label}, {chapter} {page}"))
    /\ known_placeholder name = false.
Proof.
  apply (X21_resolving_raises_only_for_an_unknown_placeholder
           Host.tex_replace_map Host.make_refnode
           {| config := {| intertex_mapping := [];
                           intertex_reference_format :=
                             py "{label}, {chapter} {page}";
                           intertex_formats := [py "latex"] |};
              builder_format := py "latex";
              builder_env := Host.env ∅ |}
           (Host.env {[ py "intro" := (py "manual", py "1", py "3") ]})
           (Host.xref (py "intro") (py "ref")) (Text (py "Introduction")) []).
  vm_compute. reflexivity.
Defined.
